(** * BillSnipe: plan comparison and usage prediction

    A shallow embedding of the two route handlers that carry the
    arithmetic of the application:

    - [src/app/api/plan/compare/route.ts]   ([Module Compare])
    - the usage prediction route            ([Module Predict])

    JavaScript numbers are modelled by [JS.num]: a finite value is an exact
    rational (rounding of doubles is not modelled, and zero carries no sign),
    next to the three special values [Infinity], [-Infinity] and [NaN], whose
    arithmetic follows IEEE 754 as JavaScript exposes it.  Dates are epoch
    milliseconds; the calendar date of [toISOString] is the UTC one, as in
    JavaScript, and the local getters ([getHours], [getDay], [setDate]) are
    read for a server whose time zone is UTC.  What is stated of the
    prediction route is stated of the answers it returns. *)

From Stdlib Require Import ZArith QArith Qround Qminmax.
From Stdlib Require Import String Bool List Sorted Permutation Lia Lqa.
Import ListNotations.

Open Scope Q_scope.

(* ================================================================== *)
(** ** JavaScript values used by the handlers *)

Module JS.

(** A JavaScript [number]. *)
Inductive num : Type :=
| Fin (q : Q)
| PInf
| NInf
| NaN.

(** Same number (finite values up to equality of rationals). *)
Definition eqn (a b : num) : Prop :=
  match a, b with
  | Fin x, Fin y => x == y
  | PInf, PInf | NInf, NInf | NaN, NaN => True
  | _, _ => False
  end.

Definition neg (a : num) : num :=
  match a with
  | Fin q => Fin (- q)
  | PInf => NInf
  | NInf => PInf
  | NaN => NaN
  end.

(** [a + b] *)
Definition add (a b : num) : num :=
  match a, b with
  | NaN, _ | _, NaN => NaN
  | Fin x, Fin y => Fin (x + y)
  | PInf, NInf | NInf, PInf => NaN
  | PInf, _ | _, PInf => PInf
  | NInf, _ | _, NInf => NInf
  end.

(** [a - b] *)
Definition sub (a b : num) : num := add a (neg b).

(** The infinity whose sign is that of a comparison with zero;
    [Infinity * 0] is [NaN]. *)
Definition signedInf (c : comparison) : num :=
  match c with Gt => PInf | Lt => NInf | Eq => NaN end.

(** [a * b] *)
Definition mul (a b : num) : num :=
  match a, b with
  | NaN, _ | _, NaN => NaN
  | Fin x, Fin y => Fin (x * y)
  | Fin x, PInf | PInf, Fin x => signedInf (x ?= 0)
  | Fin x, NInf | NInf, Fin x => signedInf (0 ?= x)
  | PInf, PInf | NInf, NInf => PInf
  | PInf, NInf | NInf, PInf => NInf
  end.

(** [a / b]: a finite value over zero is an infinity of its sign, and
    [0 / 0] is [NaN]. *)
Definition div (a b : num) : num :=
  match a, b with
  | NaN, _ | _, NaN => NaN
  | Fin x, Fin y => if Qeq_bool y 0 then signedInf (x ?= 0) else Fin (x / y)
  | Fin _, PInf | Fin _, NInf => Fin 0
  | PInf, Fin y => if Qle_bool 0 y then PInf else NInf
  | NInf, Fin y => if Qle_bool 0 y then NInf else PInf
  | _, _ => NaN
  end.

(** [a < b], [a <= b], [a > b], [a >= b]: false as soon as one side is
    [NaN]. *)
Definition lt (a b : num) : bool :=
  match a, b with
  | NaN, _ | _, NaN => false
  | Fin x, Fin y => match x ?= y with Lt => true | _ => false end
  | NInf, NInf | PInf, PInf => false
  | NInf, _ | _, PInf => true
  | _, _ => false
  end.

Definition le (a b : num) : bool :=
  match a, b with
  | NaN, _ | _, NaN => false
  | Fin x, Fin y => match x ?= y with Gt => false | _ => true end
  | NInf, _ | _, PInf => true
  | _, _ => false
  end.

Definition gt (a b : num) : bool := lt b a.
Definition ge (a b : num) : bool := le b a.

(** [Math.max(a, b)] and [Math.min(a, b)] *)
Definition Math_max (a b : num) : num :=
  match a, b with
  | NaN, _ | _, NaN => NaN
  | PInf, _ | _, PInf => PInf
  | NInf, x | x, NInf => x
  | Fin x, Fin y => Fin (Qmax x y)
  end.

Definition Math_min (a b : num) : num :=
  match a, b with
  | NaN, _ | _, NaN => NaN
  | NInf, _ | _, NInf => NInf
  | PInf, x | x, PInf => x
  | Fin x, Fin y => Fin (Qmin x y)
  end.

(** [Math.round(a)]: the nearest integer, halves going up. *)
Definition Math_round (a : num) : num :=
  match a with
  | Fin q => Fin (inject_Z (Qfloor (q + (1 # 2))))
  | other => other
  end.

(** [ToBoolean] on numbers: [0] and [NaN] are falsy. *)
Definition truthy (a : num) : bool :=
  match a with
  | Fin q => negb (Qeq_bool q 0)
  | NaN => false
  | PInf | NInf => true
  end.

(** [x || d] where [x] is a number or [undefined]. *)
Definition or_else (x : option num) (d : num) : num :=
  match x with
  | Some v => if truthy v then v else d
  | None => d
  end.

(** A JSON field holding a number, or missing. *)
Definition field (x : option Q) : option num := option_map Fin x.

(** [ToBoolean] on a string or [null]: [null] and the empty string are
    falsy. *)
Definition truthyStr (s : option string) : bool :=
  match s with
  | Some s => negb (String.eqb s EmptyString)
  | None => false
  end.

(** [Array.prototype.sort(cmp)]: a stable sort; [x] moves behind [y] only
    when [cmp(x, y) > 0], so a comparator result of [0] or [NaN] keeps the
    two elements in their order. *)
Fixpoint insert {A : Type} (cmp : A -> A -> num) (x : A) (l : list A) : list A :=
  match l with
  | [] => [x]
  | y :: l' => if gt (cmp x y) (Fin 0) then y :: insert cmp x l' else x :: l
  end.

Definition sort {A : Type} (cmp : A -> A -> num) (l : list A) : list A :=
  fold_right (insert cmp) [] l.

(** [Array.prototype.slice(0, n)] *)
Definition slice0 {A : Type} (n : nat) (l : list A) : list A := firstn n l.

(** [arr.reduce((a, b) => a + b, 0)] *)
Definition sum (l : list num) : num := fold_left add l (Fin 0).

(** *** [Map] with integer keys

    A JavaScript [Map] iterates in insertion order, and [set] on a key
    already present keeps the key's place. *)

Definition JSMap (V : Type) : Type := list (Z * V).

Fixpoint map_get {V : Type} (k : Z) (m : JSMap V) : option V :=
  match m with
  | [] => None
  | (k', v) :: m' => if (k' =? k)%Z then Some v else map_get k m'
  end.

Definition map_has {V : Type} (k : Z) (m : JSMap V) : bool :=
  match map_get k m with Some _ => true | None => false end.

Fixpoint map_set {V : Type} (k : Z) (v : V) (m : JSMap V) : JSMap V :=
  match m with
  | [] => [(k, v)]
  | (k', v') :: m' =>
      if (k' =? k)%Z then (k, v) :: m' else (k', v') :: map_set k v m'
  end.

(** [Array.from(m.values())] *)
Definition map_values {V : Type} (m : JSMap V) : list V := List.map snd m.

(** *** Dates: epoch milliseconds

    [toISOString] and [new Date('YYYY-MM-DD')] are in UTC in JavaScript;
    [getHours], [getDay] and [setDate] are local, and are read here for a
    server whose time zone is UTC. *)

Definition Date : Type := Z.

Definition msPerHour : Z := 3600000.
Definition msPerDay : Z := 86400000.

(** [d.getHours()] *)
Definition getHours (d : Date) : Z := ((d / msPerHour) mod 24)%Z.

(** [d.getDay()]: 0 is Sunday; 1 January 1970 was a Thursday. *)
Definition getDay (d : Date) : Z := ((d / msPerDay + 4) mod 7)%Z.

(** [d.toISOString().split('T')[0]]: the calendar date, as its day number
    since the epoch. *)
Definition isoDate (d : Date) : Z := (d / msPerDay)%Z.

(** [new Date(dateString)] for a calendar date: midnight of that day. *)
Definition dateOfIso (day : Z) : Date := (day * msPerDay)%Z.

(** [d.setDate(d.getDate() + i)] *)
Definition addDays (d : Date) (i : Z) : Date := (d + i * msPerDay)%Z.

End JS.

Import JS.

(** A stored hourly reading ([prisma.usageHour]). *)
Record UsageHour : Type := mkUsage {
  timestamp : Date;
  kWh : Q
}.

(* ================================================================== *)
(** ** The plan comparison route *)

Module Compare.

(** One tier of a tiered schema: [{ limit, rate }]; a missing [limit]
    is [None]. *)
Record Tier : Type := mkTier {
  limit : option Q;
  rate : Q
}.

(** [schema.periods] of a time-of-use schema. *)
Record Periods : Type := mkPeriods {
  offPeak : option Q;
  midPeak : option Q;
  onPeak : option Q
}.

(** [plan.schema], the JSON description of the rate structure. *)
Record Schema : Type := mkSchema {
  type : option string;
  baseRate : option Q;
  tiers : option (list Tier);
  periods : Periods;
  greenEnergy : bool;
  rewards : bool
}.

(** A row of [prisma.planCatalog]. *)
Record PlanCatalog : Type := mkPlan {
  id : string;
  name : string;
  provider : string;
  schema : Schema
}.

(** [prisma.utilityAccount]: only the provider is read. *)
Record UtilityAccount : Type := mkAccount {
  account_provider : option string
}.

Record CompareRequest : Type := mkRequest {
  startDate : option Date;
  endDate : option Date
}.

Record PlanComparison : Type := mkComparison {
  planId : string;
  planName : string;
  comparison_provider : string;
  estimatedMonthlyCost : num;
  estimatedAnnualCost : num;
  estimatedAnnualSavings : num;
  planType : string;
  features : list string
}.

Record CompareResponse : Type := mkResponse {
  currentPlan_provider : option string;
  currentPlan_estimatedMonthlyCost : num;
  recommendations : list PlanComparison;
  analysisPeriod_startDate : Date;
  analysisPeriod_endDate : Date;
  analysisPeriod_totalUsage : num
}.

(** [schema.type === s] *)
Definition type_is (s : Schema) (t : string) : bool :=
  match type s with
  | Some t' => String.eqb t' t
  | None => false
  end.

(** [usageData.reduce((sum, u) => sum + u.kWh, 0)] *)
Definition totalUsage (usageData : list UsageHour) : num :=
  fold_left (fun sum u => add sum (Fin (kWh u))) usageData (Fin 0).

(** The body of the [for ... of] loop of [calculateTieredCost], with its
    [break]. *)
Fixpoint tierLoop (tiers : list Tier) (cost remainingKwh : num) : num :=
  match tiers with
  | [] => cost
  | tier :: rest =>
      let tierKwh := Math_min remainingKwh (or_else (field (limit tier)) PInf) in
      let cost := add cost (mul tierKwh (Fin (rate tier))) in
      let remainingKwh := sub remainingKwh tierKwh in
      if le remainingKwh (Fin 0) then cost else tierLoop rest cost remainingKwh
  end.

Definition calculateTieredCost (totalKwh : num) (tiers : option (list Tier)) : num :=
  tierLoop (match tiers with Some l => l | None => [] end) (Fin 0) totalKwh.

(** The rate chosen for one reading in [calculateTOUCost]. *)
Definition touRate (periods : Periods) (hour : Z) : num :=
  let rate := or_else (field (offPeak periods)) (Fin 0.08) in
  if ((7 <=? hour) && (hour <? 11))%Z then or_else (field (onPeak periods)) (Fin 0.18)
  else if ((11 <=? hour) && (hour <? 17))%Z then or_else (field (midPeak periods)) (Fin 0.13)
  else if ((17 <=? hour) && (hour <? 19))%Z then or_else (field (onPeak periods)) (Fin 0.18)
  else rate.

Definition calculateTOUCost (usageData : list UsageHour) (periods : Periods) : num :=
  fold_left
    (fun cost usage =>
       let hour := getHours (timestamp usage) in
       add cost (mul (Fin (kWh usage)) (touRate periods hour)))
    usageData (Fin 0).

Definition calculatePlanCost (plan : PlanCatalog) (usageData : list UsageHour) : num :=
  let schema := schema plan in
  let totalKwh := totalUsage usageData in
  let baseRate := or_else (field (baseRate schema)) (Fin 0.12) in
  if type_is schema "tiered" then calculateTieredCost totalKwh (tiers schema)
  else if type_is schema "tou" then calculateTOUCost usageData (periods schema)
  else mul totalKwh baseRate.

Definition calculateCurrentCost (usageData : list UsageHour) : num :=
  let totalKwh := totalUsage usageData in
  mul totalKwh (Fin 0.15).

Definition getPlanType (schema : Schema) : string :=
  match type schema with
  | Some t => if String.eqb t EmptyString then "fixed"%string else t
  | None => "fixed"%string
  end.

Definition getPlanFeatures (schema : Schema) : list string :=
  (if type_is schema "tou" then ["Time-of-Use pricing"%string] else []) ++
  (if type_is schema "tiered" then ["Tiered pricing"%string] else []) ++
  (if greenEnergy schema then ["100% Green Energy"%string] else []) ++
  (if rewards schema then ["Rewards program"%string] else []).

(** [account.provider ? calculateCurrentCost(usageData) : estimatedCost] *)
Definition currentCostOf (account : UtilityAccount) (usageData : list UsageHour)
    (estimatedCost : num) : num :=
  if truthyStr (account_provider account)
  then calculateCurrentCost usageData
  else estimatedCost.

(** The callback of [availablePlans.map] in [handleCompare]. *)
Definition comparisonOf (account : UtilityAccount) (usageData : list UsageHour)
    (plan : PlanCatalog) : PlanComparison :=
  let estimatedCost := calculatePlanCost plan usageData in
  let currentCost := currentCostOf account usageData estimatedCost in
  {| planId := id plan;
     planName := name plan;
     comparison_provider := provider plan;
     estimatedMonthlyCost := div estimatedCost (Fin 3);
     estimatedAnnualCost := mul (div estimatedCost (Fin 3)) (Fin 12);
     estimatedAnnualSavings :=
       Math_max (Fin 0) (mul (sub currentCost estimatedCost) (Fin 4));
     planType := getPlanType (schema plan);
     features := getPlanFeatures (schema plan) |}.

(** [handleCompare] from the point where the account, the usage rows of
    the period and the active plans of the region have been read;
    [now] is [Date.now()]. *)
Definition handleCompare (now : Date) (validated : CompareRequest)
    (account : UtilityAccount) (usageData : list UsageHour)
    (availablePlans : list PlanCatalog) : CompareResponse :=
  let startDate :=
    match startDate validated with
    | Some d => d
    | None => (now - 90 * 24 * 60 * 60 * 1000)%Z
    end in
  let endDate :=
    match endDate validated with
    | Some d => d
    | None => now
    end in
  let comparisons := map (comparisonOf account usageData) availablePlans in
  let comparisons :=
    sort (fun a b => sub (estimatedAnnualSavings b) (estimatedAnnualSavings a))
         comparisons in
  {| currentPlan_provider := account_provider account;
     currentPlan_estimatedMonthlyCost := div (calculateCurrentCost usageData) (Fin 3);
     recommendations := slice0 5 comparisons;
     analysisPeriod_startDate := startDate;
     analysisPeriod_endDate := endDate;
     analysisPeriod_totalUsage := totalUsage usageData |}.

End Compare.

(* ================================================================== *)
(** ** The usage prediction route *)

Module Predict.

Inductive Trend : Type := increasing | decreasing | stable.

Record UsagePrediction : Type := mkPrediction {
  date : Z;
  predictedKWh : num;
  confidence : num;
  trend : Trend;
  estimatedCost : num
}.

Record PredictionAnalytics : Type := mkAnalytics {
  averageDailyUsage : num;
  peakUsageHour : Z;
  lowestUsageHour : Z;
  weekdayAverage : num;
  weekendAverage : num;
  monthlyTrend : num
}.

Record DataQuality : Type := mkQuality {
  dataPoints : nat;
  dateRange_start : option Date;
  dateRange_end : option Date;
  completeness : num
}.

(** The body of the 200 response; the [insights] strings, which only
    format these figures for display, are left out. *)
Record PredictionResponse : Type := mkResponse {
  predictions : list UsagePrediction;
  analytics : PredictionAnalytics;
  dataQuality : DataQuality
}.

(** What the wrapped handler answers: the 200 body, the 400 of the data
    check, or the 500 that the middleware makes of a thrown [TypeError]. *)
Inductive Response : Type :=
| Ok (body : PredictionResponse)
| BadRequest (error message : string)
| InternalServerError.

(** [n] as a JavaScript number. *)
Definition ofNat (n : nat) : num := Fin (inject_Z (Z.of_nat n)).

(** [values.reduce((a, b) => a + b, 0) / values.length] *)
Definition average (values : list num) : num :=
  div (JS.sum values) (ofNat (length values)).

Definition calculateTrend (values : list num) : num :=
  let n := length values in
  let x := map ofNat (seq 0 n) in
  let y := values in
  let sumX := JS.sum x in
  let sumY := JS.sum y in
  let sumXY :=
    fold_left (fun sum xy => add sum (mul (fst xy) (snd xy))) (combine x y) (Fin 0) in
  let sumX2 := fold_left (fun sum xi => add sum (mul xi xi)) x (Fin 0) in
  let slope :=
    div (sub (mul (ofNat n) sumXY) (mul sumX sumY))
        (sub (mul (ofNat n) sumX2) (mul sumX sumX)) in
  slope.

(** [dailyUsage.set(date, (dailyUsage.get(date) || 0) + usage.kWh)] *)
Definition addDaily (dailyUsage : JSMap num) (usage : UsageHour) : JSMap num :=
  let date := isoDate (timestamp usage) in
  map_set date (add (or_else (map_get date dailyUsage) (Fin 0)) (Fin (kWh usage)))
          dailyUsage.

(** [[0, 6].includes(d.getDay())] *)
Definition isWeekend (d : Date) : bool :=
  ((getDay d =? 0) || (getDay d =? 6))%Z.

(** The hourly buckets: [has]/[set] of an empty array, then [push]. *)
Definition addHourly (hourlyUsage : JSMap (list num)) (usage : UsageHour)
    : JSMap (list num) :=
  let hour := getHours (timestamp usage) in
  let hourlyUsage :=
    if map_has hour hourlyUsage then hourlyUsage else map_set hour [] hourlyUsage in
  match map_get hour hourlyUsage with
  | Some values => map_set hour (values ++ [Fin (kWh usage)]) hourlyUsage
  | None => hourlyUsage
  end.

(** [calculateAnalytics]; [None] is the [TypeError] of reading
    [hourlyAverages[0].hour] when there is no reading at all. *)
Definition calculateAnalytics (usageData : list UsageHour) : option PredictionAnalytics :=
  let dailyUsage := fold_left addDaily usageData [] in
  let hourlyUsage := fold_left addHourly usageData [] in
  let weekdayUsage :=
    map (fun u => Fin (kWh u)) (filter (fun u => negb (isWeekend (timestamp u))) usageData) in
  let weekendUsage :=
    map (fun u => Fin (kWh u)) (filter (fun u => isWeekend (timestamp u)) usageData) in
  let dailyValues := map_values dailyUsage in
  let averageDailyUsage := average dailyValues in
  let hourlyAverages :=
    map (fun entry => (fst entry, average (snd entry))) hourlyUsage in
  let hourlyAverages :=
    sort (fun a b => sub (snd b) (snd a)) hourlyAverages in
  match hourlyAverages with
  | [] => None
  | first :: _ =>
      let peakUsageHour := fst first in
      let lowestUsageHour := fst (last hourlyAverages first) in
      let weekdayAverage := average weekdayUsage in
      let weekendAverage := average weekendUsage in
      let monthlyTrend := calculateTrend dailyValues in
      Some {| averageDailyUsage := averageDailyUsage;
              peakUsageHour := peakUsageHour;
              lowestUsageHour := lowestUsageHour;
              weekdayAverage := weekdayAverage;
              weekendAverage := weekendAverage;
              monthlyTrend := monthlyTrend |}
  end.

(** First loop of [generatePredictions]: an empty bucket for every day of
    the week that occurs. *)
Definition addPattern (dayOfWeekPatterns : JSMap (list num)) (usage : UsageHour)
    : JSMap (list num) :=
  let dayOfWeek := getDay (timestamp usage) in
  if map_has dayOfWeek dayOfWeekPatterns then dayOfWeekPatterns
  else map_set dayOfWeek [] dayOfWeekPatterns.

(** Second loop: [dayOfWeekPatterns.get(dayOfWeek)!.push(total)];
    [None] is the [TypeError] of calling [push] on [undefined]. *)
Definition pushTotal (dayOfWeekPatterns : option (JSMap (list num)))
    (entry : Z * num) : option (JSMap (list num)) :=
  match dayOfWeekPatterns with
  | None => None
  | Some patterns =>
      let dayOfWeek := getDay (dateOfIso (fst entry)) in
      match map_get dayOfWeek patterns with
      | Some values => Some (map_set dayOfWeek (values ++ [snd entry]) patterns)
      | None => None
      end
  end.

(** The trend label of a slope. *)
Definition trendOf (monthlyTrend : num) : Trend :=
  if gt monthlyTrend (Fin 0.1) then increasing
  else if lt monthlyTrend (Fin (- 0.1)) then decreasing
  else stable.

(** One turn of the loop [for (let i = 1; i <= days; i++)]. *)
Definition predictionAt (lastDate : Date) (dayOfWeekAverages : JSMap num)
    (days : Q) (analytics : PredictionAnalytics) (i : nat) : UsagePrediction :=
  let baseRate := Fin 0.15 in
  let predictionDate := addDays lastDate (Z.of_nat i) in
  let dayOfWeek := getDay predictionDate in
  let baseUsage :=
    or_else (map_get dayOfWeek dayOfWeekAverages) (averageDailyUsage analytics) in
  let trendAdjustment := mul (monthlyTrend analytics) (ofNat i) in
  let predictedKWh := Math_max (Fin 0) (add baseUsage trendAdjustment) in
  let confidence :=
    Math_max (Fin 0.5) (sub (Fin 1) (mul (div (ofNat i) (Fin days)) (Fin 0.3))) in
  let trend := trendOf (monthlyTrend analytics) in
  {| date := isoDate predictionDate;
     predictedKWh := div (Math_round (mul predictedKWh (Fin 100))) (Fin 100);
     confidence := div (Math_round (mul confidence (Fin 100))) (Fin 100);
     trend := trend;
     estimatedCost :=
       div (Math_round (mul (mul predictedKWh baseRate) (Fin 100))) (Fin 100) |}.

(** [generatePredictions]; [None] is a thrown [TypeError] (no reading at
    all, or a day of the week without a bucket).  The loop runs for
    [i = 1, 2, ...] as long as [i <= days]. *)
Definition generatePredictions (usageData : list UsageHour) (days : Q)
    (analytics : PredictionAnalytics) : option (list UsagePrediction) :=
  match usageData with
  | [] => None
  | first :: _ =>
      let lastDate := timestamp (last usageData first) in
      let dayOfWeekPatterns := fold_left addPattern usageData [] in
      let dailyUsage := fold_left addDaily usageData [] in
      match fold_left pushTotal dailyUsage (Some dayOfWeekPatterns) with
      | None => None
      | Some dayOfWeekPatterns =>
          let dayOfWeekAverages :=
            map (fun entry => (fst entry, average (snd entry))) dayOfWeekPatterns in
          Some (map (predictionAt lastDate dayOfWeekAverages days analytics)
                    (seq 1 (Z.to_nat (Qfloor days))))
      end
  end.

(** [handlePrediction] from the point where the usage rows of the last
    90 days have been read; [predictionDays] is the validated horizon. *)
Definition handlePrediction (predictionDays : Q) (usageData : list UsageHour)
    : Response :=
  if (length usageData <? 168)%nat then
    BadRequest "Insufficient data"
               "At least 7 days of usage data required for predictions"
  else
    match calculateAnalytics usageData with
    | None => InternalServerError
    | Some analytics =>
        match generatePredictions usageData predictionDays analytics with
        | None => InternalServerError
        | Some predictions =>
            Ok {| predictions := predictions;
                  analytics := analytics;
                  dataQuality :=
                    {| dataPoints := length usageData;
                       dateRange_start := option_map timestamp (hd_error usageData);
                       dateRange_end :=
                         option_map timestamp (nth_error usageData (length usageData - 1));
                       completeness :=
                         Math_min (Fin 100)
                           (mul (div (ofNat (length usageData)) (Fin (90 * 24)))
                                (Fin 100)) |} |}
        end
    end.

End Predict.

(* ================================================================== *)
(** ** The specification's formulas

    These definitions follow the wording of the specification, over exact
    rationals; the theorems below compare them with the handlers. *)

Module Spec.

Import Compare.

(** [sum(U.kWh)] *)
Definition sumKWh (U : list UsageHour) : Q :=
  fold_right (fun u s => kWh u + s) 0 U.

(** Tiered: for each tier in order, [consumed = min(remaining, limitKWh)]
    (all of [remaining] when the limit is unbounded),
    [cost += consumed * ratePerKWh], [remaining -= consumed], stopping once
    [remaining <= 0]; what is left after the last tier is not charged. *)
Fixpoint consumeTiers (tiers : list Tier) (cost remaining : Q) : Q :=
  match tiers with
  | [] => cost
  | tier :: rest =>
      let consumed :=
        match limit tier with
        | Some limitKWh => Qmin remaining limitKWh
        | None => remaining
        end in
      let cost := cost + consumed * rate tier in
      let remaining := remaining - consumed in
      if Qle_bool remaining 0 then cost else consumeTiers rest cost remaining
  end.

Definition tieredCost (tiers : list Tier) (U : list UsageHour) : Q :=
  consumeTiers tiers 0 (sumKWh U).

(** A rate or limit as the route reads it: [0] and a missing value give
    way to the default. *)
Definition orDefault (x : option Q) (d : Q) : Q :=
  match x with
  | Some q => if Qeq_bool q 0 then d else q
  | None => d
  end.

(** A tier as the route reads it: a limit of [0] is no limit. *)
Definition effectiveTier (t : Tier) : Tier :=
  match limit t with
  | Some l => if Qeq_bool l 0 then mkTier None (rate t) else t
  | None => t
  end.


(** A tier whose limit is missing or a number other than [0]. *)
Definition properLimit (t : Tier) : Prop :=
  match limit t with
  | Some l => ~ l == 0
  | None => True
  end.

(** A tier with a positive limit. *)
Definition bounded (t : Tier) : Prop :=
  match limit t with
  | Some l => 0 < l
  | None => False
  end.

(** The width of the declared tiers, and the price of filling them all. *)
Definition sumLimits (tiers : list Tier) : Q :=
  fold_right (fun t s => match limit t with Some l => l + s | None => s end) 0 tiers.

Definition filledCost (tiers : list Tier) : Q :=
  fold_right
    (fun t s => match limit t with Some l => l * rate t + s | None => s end) 0 tiers.

(** Time of use: a table of half-open hour ranges [[start, end)], the
    first matching range giving the rate, and the off-peak rate for an
    hour that no range covers. *)
Definition rateForHour (table : list (Z * Z * Q)) (offPeakRate : Q) (hour : Z) : Q :=
  match find (fun r => ((fst (fst r) <=? hour) && (hour <? snd (fst r)))%Z) table with
  | Some r => snd r
  | None => offPeakRate
  end.

(** The ranges of the route: on-peak 7-11 and 17-19, mid-peak 11-17. *)
Definition touTable (midPeakRate onPeakRate : Q) : list (Z * Z * Q) :=
  [ (7, 11, onPeakRate); (11, 17, midPeakRate); (17, 19, onPeakRate) ]%Z.

Definition touCost (offPeakRate midPeakRate onPeakRate : Q) (U : list UsageHour) : Q :=
  fold_right
    (fun u s =>
       kWh u * rateForHour (touTable midPeakRate onPeakRate) offPeakRate
                           (getHours (timestamp u)) + s)
    0 U.

(** The comparator of the ranker, [(a, b) => b.estimatedAnnualSavings -
    a.estimatedAnnualSavings]. *)
Definition bySavings (a b : PlanComparison) : num :=
  sub (estimatedAnnualSavings b) (estimatedAnnualSavings a).

(** [a] may be listed before [b]: its savings are at least those of [b]. *)
Definition savingsGe (a b : PlanComparison) : Prop :=
  le (estimatedAnnualSavings b) (estimatedAnnualSavings a) = true.

Definition finiteSavings (r : PlanComparison) : Prop :=
  exists q, estimatedAnnualSavings r = Fin q.

(** [annualizationFactor = 365 / windowDays] and
    [annualSavings = max(0, (currentBaselineCost - estimatedCost) * annualizationFactor)] *)
Definition annualizationFactor (windowDays : Q) : Q := 365 / windowDays.

Definition annualSavings (currentBaselineCost estimatedCost windowDays : Q) : Q :=
  Qmax 0 ((currentBaselineCost - estimatedCost) * annualizationFactor windowDays).

(** The number of distinct calendar days a series covers. *)
Definition distinctDays (U : list UsageHour) : nat :=
  List.length (nodup Z.eq_dec (map (fun u => isoDate (timestamp u)) U)).

(** [confidence = max(0.5, 1 - (i / horizonDays) * 0.3)] *)
Definition confidence (i : nat) (horizonDays : Q) : Q :=
  Qmax 0.5 (1 - (inject_Z (Z.of_nat i) / horizonDays) * 0.3).

(** A figure rounded to cents, [Math.round(x * 100) / 100]. *)
Definition round2 (x : Q) : Q := inject_Z (Qfloor (x * 100 + (1 # 2))) / 100.

End Spec.

(* ================================================================== *)
(** ** Sample data *)

Module Samples.

Import Compare Predict.

Definition noPeriods : Periods := mkPeriods None None None.

Definition flatPlan (r : option Q) : PlanCatalog :=
  mkPlan "flat" "Flat" "Acme" (mkSchema (Some "fixed"%string) r None noPeriods false false).

Definition tieredPlan (l : list Tier) : PlanCatalog :=
  mkPlan "tiered" "Tiered" "Acme"
         (mkSchema (Some "tiered"%string) None (Some l) noPeriods false false).

Definition touPlan (p : Periods) : PlanCatalog :=
  mkPlan "tou" "Time of use" "Acme" (mkSchema (Some "tou"%string) None None p false false).

(** A reading of [k] kWh at hour [h] of 1 January 1970. *)
Definition readingAt (h : Z) (k : Q) : UsageHour := mkUsage (h * msPerHour)%Z k.

(** [n] readings of 1 kWh, [step] milliseconds apart, from the epoch. *)
Definition series (n : nat) (step : Z) : list UsageHour :=
  map (fun i => mkUsage (Z.of_nat i * step)%Z 1) (seq 0 n).

End Samples.

(* ================================================================== *)
(** ** Shapes of inputs and results

    Predicates and small functions in which the further properties of the
    two routes are stated. *)

Module Props.

Import Compare Predict.

(** The comparison saves exactly [q]. *)
Definition sameSavings (q : Q) (r : PlanComparison) : bool :=
  match estimatedAnnualSavings r with
  | Fin x => Qeq_bool x q
  | _ => false
  end.

(** No tier of the plan has a negative limit. *)
Definition nonnegLimits (plan : PlanCatalog) : Prop :=
  match tiers (schema plan) with
  | Some l =>
      Forall (fun t => match limit t with Some x => 0 <= x | None => True end) l
  | None => True
  end.



(** The plan is priced flat: its type is neither "tiered" nor "tou". *)
Definition isFlat (plan : PlanCatalog) : Prop :=
  type_is (schema plan) "tiered" = false /\ type_is (schema plan) "tou" = false.

(** A natural number as a rational. *)
Definition qn (n : nat) : Q := inject_Z (Z.of_nat n).

(** The number is finite. *)
Definition finite (v : num) : Prop := exists q, v = Fin q.

(** The value of a map entry is finite. *)
Definition finiteEntry (e : Z * num) : Prop := finite (snd e).

(** The rational a finite number stands for. *)
Definition toQ (v : num) : Q :=
  match v with
  | Fin q => q
  | _ => 0
  end.

(** The sum of the values of a map. *)
Definition sumQ (m : JSMap num) : Q :=
  fold_right (fun e s => toQ (snd e) + s) 0 m.

(** [dailyUsage], the map from calendar dates to daily totals that
    [calculateAnalytics] and [generatePredictions] build. *)
Definition dailyUsage (U : list UsageHour) : JSMap num :=
  fold_left addDaily U [].

(** [hourlyAverages] of [calculateAnalytics], before it is sorted. *)
Definition hourlyAverages (U : list UsageHour) : list (Z * num) :=
  map (fun entry => (fst entry, average (snd entry))) (fold_left addHourly U []).

(** The hour, counted from the epoch, in which a reading falls. *)
Definition hourSlot (u : UsageHour) : Z := (timestamp u / msPerHour)%Z.

(** The series is hourly: no two readings fall in the same hour. *)
Definition hourly (U : list UsageHour) : Prop := NoDup (map hourSlot U).

(** Every value collected under the key is finite. *)
Definition finiteBucket (e : Z * list num) : Prop := Forall finite (snd e).

(** Every value collected under the key is finite, and there is one. *)
Definition fullBucket (e : Z * list num) : Prop :=
  snd e <> [] /\ Forall finite (snd e).

(** The readings taken at a given hour of the day, and their mean. *)
Definition readingsAt (hour : Z) (U : list UsageHour) : list num :=
  map (fun u => Fin (kWh u))
      (filter (fun u => (getHours (timestamp u) =? hour)%Z) U).

Definition hourAverage (hour : Z) (U : list UsageHour) : num :=
  average (readingsAt hour U).

(** The values under a key, none when the key is missing. *)
Definition bucket (k : Z) (m : JSMap (list num)) : list num :=
  match map_get k m with
  | Some values => values
  | None => []
  end.

End Props.

(* ================================================================== *)
(** ** The insights of the prediction route

    [generateInsights] returns sentences.  Each sentence is modelled by
    its template and the values it interpolates, before they are printed
    ([toFixed] is not modelled). *)

Module Insights.

Import Predict.

(** [Math.abs(a)] *)
Definition Math_abs (a : num) : num :=
  match a with
  | Fin q => Fin (if Qle_bool 0 q then q else - q)
  | PInf | NInf => PInf
  | NaN => NaN
  end.

Inductive Insight : Type :=
| WeekendHigher (percent : num)
    (* "Your weekend usage is [percent]% higher than weekdays. ..." *)
| EveningPeak (hour : Z)
    (* "Peak usage occurs at [hour]:00 during evening hours. ..." *)
| TrendingUpward (change : num)
    (* "Usage is trending upward by [change.toFixed(1)]%. ..." *)
| TrendingDownward (change : num)
    (* "Great news! Usage is trending downward by [change.toFixed(1)]%. ..." *)
| CostProjection (days : nat) (total : num).
    (* "Estimated [days]-day cost: $[total.toFixed(2)] based on ..." *)

Definition generateInsights (analytics : PredictionAnalytics)
    (predictions : list UsagePrediction) : list Insight :=
  let insights := [] in
  let insights :=
    if gt (weekendAverage analytics) (mul (weekdayAverage analytics) (Fin 1.2))
    then insights ++
         [WeekendHigher
            (Math_round
               (mul (sub (div (weekendAverage analytics) (weekdayAverage analytics))
                         (Fin 1))
                    (Fin 100)))]
    else insights in
  let insights :=
    if ((17 <=? peakUsageHour analytics) && (peakUsageHour analytics <=? 21))%Z
    then insights ++ [EveningPeak (peakUsageHour analytics)]
    else insights in
  let avgPredicted :=
    div (fold_left (fun sum p => add sum (predictedKWh p)) predictions (Fin 0))
        (ofNat (List.length predictions)) in
  let trendChange :=
    mul (sub (div avgPredicted (averageDailyUsage analytics)) (Fin 1)) (Fin 100) in
  let insights :=
    if gt (Math_abs trendChange) (Fin 5)
    then if gt trendChange (Fin 0)
         then insights ++ [TrendingUpward (Math_abs trendChange)]
         else insights ++ [TrendingDownward (Math_abs trendChange)]
    else insights in
  let totalPredictedCost :=
    fold_left (fun sum p => add sum (estimatedCost p)) predictions (Fin 0) in
  insights ++ [CostProjection (List.length predictions) totalPredictedCost].

(** The sentence compares or reports a trend. *)
Definition isTrendInsight (i : Insight) : bool :=
  match i with
  | TrendingUpward _ | TrendingDownward _ => true
  | _ => false
  end.

End Insights.

(* ================================================================== *)
(** ** Facts about the JavaScript values *)

Module JSFacts.

Lemma eqn_refl (a : num) : eqn a a.
Proof. destruct a; simpl; auto; reflexivity. Qed.

Lemma eqn_sym (a b : num) : eqn a b -> eqn b a.
Proof. destruct a, b; simpl; auto; intros H; symmetry; exact H. Qed.

Lemma eqn_trans (a b c : num) : eqn a b -> eqn b c -> eqn a c.
Proof.
  destruct a, b, c; simpl; auto; try contradiction.
  intros H1 H2; rewrite H1; exact H2.
Qed.

Lemma lt_fin (x y : Q) : lt (Fin x) (Fin y) = true <-> x < y.
Proof.
  simpl; rewrite Qlt_alt; destruct (x ?= y); split; congruence.
Qed.

Lemma gt_fin (x y : Q) : gt (Fin x) (Fin y) = true <-> y < x.
Proof. unfold gt; apply lt_fin. Qed.

Lemma le_fin (x y : Q) : le (Fin x) (Fin y) = true <-> x <= y.
Proof.
  simpl; rewrite Qle_alt; destruct (x ?= y); split; congruence.
Qed.

Lemma le_fin_bool (x y : Q) : le (Fin x) (Fin y) = Qle_bool x y.
Proof.
  destruct (Qle_bool x y) eqn:E.
  - apply le_fin, Qle_bool_iff, E.
  - destruct (le (Fin x) (Fin y)) eqn:E'; [| reflexivity].
    apply le_fin, Qle_bool_iff in E'; congruence.
Qed.

Lemma gt_fin_false (x y : Q) : gt (Fin x) (Fin y) = false <-> x <= y.
Proof.
  split; intros H.
  - destruct (Qlt_le_dec y x) as [L | L]; [| exact L].
    apply gt_fin in L; congruence.
  - destruct (gt (Fin x) (Fin y)) eqn:E; [| reflexivity].
    apply gt_fin in E; lra.
Qed.

Lemma truthy_fin (q : Q) : truthy (Fin q) = true <-> ~ q == 0.
Proof.
  simpl; split; intros H.
  - intros E; apply Qeq_bool_iff in E; rewrite E in H; discriminate.
  - destruct (Qeq_bool q 0) eqn:E; [| reflexivity].
    apply Qeq_bool_iff in E; contradiction.
Qed.

Lemma or_else_nonzero (q : Q) (d : num) : ~ q == 0 -> or_else (field (Some q)) d = Fin q.
Proof.
  intros H; cbn [field option_map or_else].
  apply truthy_fin in H; rewrite H; reflexivity.
Qed.


Lemma or_else_finite (x : option Q) (d : Q) : exists q, or_else (field x) (Fin d) = Fin q.
Proof.
  destruct x as [q |]; cbn [field option_map or_else]; [| eauto].
  destruct (truthy (Fin q)); eauto.
Qed.

(** *** [sort] *)

Section Sorting.

Context {A : Type}.
Variable cmp : A -> A -> num.

Lemma insert_perm (x : A) (l : list A) : Permutation (insert cmp x l) (x :: l).
Proof.
  induction l as [| y l IH]; cbn [insert]; [reflexivity |].
  destruct (gt (cmp x y) (Fin 0)); [| reflexivity].
  rewrite IH; apply perm_swap.
Qed.

Lemma sort_perm (l : list A) : Permutation (sort cmp l) l.
Proof.
  induction l as [| x l IH]; cbn [sort fold_right]; [reflexivity |].
  fold (sort cmp l); rewrite insert_perm; constructor; exact IH.
Qed.

Lemma sort_length (l : list A) : List.length (sort cmp l) = List.length l.
Proof. apply Permutation_length, sort_perm. Qed.

(** Elements that the comparator never orders stay where they are. *)
Lemma sort_tied (l : list A) :
  (forall x y, In x l -> In y l -> gt (cmp x y) (Fin 0) = false) ->
  sort cmp l = l.
Proof.
  induction l as [| x l IH]; intros H; [reflexivity |].
  cbn [sort fold_right]; fold (sort cmp l).
  rewrite IH by (intros; apply H; right; assumption).
  destruct l as [| y l]; [reflexivity |].
  cbn [insert]; rewrite H; [reflexivity | left; reflexivity | right; left; reflexivity].
Qed.

Variable P : A -> Prop.
Variable R : A -> A -> Prop.
Hypothesis cmp_gt : forall x y, P x -> P y -> gt (cmp x y) (Fin 0) = true -> R y x.
Hypothesis cmp_ngt : forall x y, P x -> P y -> gt (cmp x y) (Fin 0) = false -> R x y.
Hypothesis R_trans : forall x y z, P x -> P y -> P z -> R x y -> R y z -> R x z.

Lemma insert_sorted (x : A) (l : list A) :
  P x -> Forall P l -> StronglySorted R l -> StronglySorted R (insert cmp x l).
Proof.
  intros Px Pl Sl; induction Sl as [| y l Sl IH Hy]; cbn [insert].
  - constructor; constructor.
  - inversion Pl as [| ? ? Py Pl']; subst.
    destruct (gt (cmp x y) (Fin 0)) eqn:E.
    + constructor; [apply IH; assumption |].
      apply Forall_forall; intros z Hz.
      apply (Permutation_in _ (insert_perm x l)) in Hz.
      destruct Hz as [<- | Hz]; [apply cmp_gt; assumption |].
      rewrite Forall_forall in Hy; apply Hy; assumption.
    + constructor; [constructor; assumption |].
      constructor; [apply cmp_ngt; assumption |].
      apply Forall_forall; intros z Hz.
      apply R_trans with y; auto.
      * rewrite Forall_forall in Pl'; apply Pl'; assumption.
      * rewrite Forall_forall in Hy; apply Hy; assumption.
Qed.

Lemma sort_sorted (l : list A) : Forall P l -> StronglySorted R (sort cmp l).
Proof.
  induction l as [| x l IH]; intros Pl; cbn [sort fold_right]; [constructor |].
  fold (sort cmp l); inversion Pl; subst.
  apply insert_sorted; auto.
  apply Forall_forall; intros z Hz.
  apply (Permutation_in _ (sort_perm l)) in Hz.
  rewrite Forall_forall in H2; apply H2; assumption.
Qed.

End Sorting.

Lemma firstn_In {A : Type} (n : nat) (l : list A) (x : A) :
  In x (firstn n l) -> In x l.
Proof.
  intros H; rewrite <- (firstn_skipn n l); apply in_or_app; left; exact H.
Qed.

Lemma firstn_sorted {A : Type} (R : A -> A -> Prop) (n : nat) (l : list A) :
  StronglySorted R l -> StronglySorted R (firstn n l).
Proof.
  intros S; revert n; induction S as [| x l S IH Hx]; intros [| n]; cbn [firstn];
    try constructor.
  - apply IH.
  - apply Forall_forall; intros z Hz.
    rewrite Forall_forall in Hx; apply Hx.
    rewrite <- (firstn_skipn n l); apply in_or_app; left; exact Hz.
Qed.

End JSFacts.

(* ================================================================== *)
(** ** The plan cost calculator *)

Module CompareFacts.

Import Compare JSFacts Samples.

Lemma fold_kWh (U : list UsageHour) (a : Q) :
  exists q,
    fold_left (fun sum u => add sum (Fin (kWh u))) U (Fin a) = Fin q /\
    q == a + Spec.sumKWh U.
Proof.
  revert a; induction U as [| u U IH]; intros a; cbn [fold_left Spec.sumKWh fold_right].
  - exists a; split; [reflexivity | lra].
  - change (add (Fin a) (Fin (kWh u))) with (Fin (a + kWh u)).
    destruct (IH (a + kWh u)) as (q & E & Hq).
    exists q; split; [exact E |].
    rewrite Hq; fold (Spec.sumKWh U); lra.
Qed.

(** The total is the finite sum of the readings. *)
Lemma totalUsage_sum (U : list UsageHour) :
  exists q, totalUsage U = Fin q /\ q == Spec.sumKWh U.
Proof.
  destruct (fold_kWh U 0) as (q & E & Hq).
  exists q; split; [exact E | rewrite Hq; lra].
Qed.

Lemma tier_step (t : Tier) (rest : list Tier) (c r : Q) :
  exists k,
    tierLoop (t :: rest) (Fin c) (Fin r) =
      (if Qle_bool (r - k) 0 then Fin (c + k * rate t)
       else tierLoop rest (Fin (c + k * rate t)) (Fin (r - k))) /\
    Math_min (Fin r) (or_else (field (limit t)) PInf) = Fin k.
Proof.
  assert (H : exists k, Math_min (Fin r) (or_else (field (limit t)) PInf) = Fin k).
  { destruct (limit t) as [l |]; cbn [field option_map or_else].
    - destruct (truthy (Fin l)); cbn [Math_min]; eauto.
    - cbn [Math_min]; eauto. }
  destruct H as (k & Hk); exists k; split; [| exact Hk].
  cbn [tierLoop]; rewrite Hk.
  change (mul (Fin k) (Fin (rate t))) with (Fin (k * rate t)).
  change (add (Fin c) (Fin (k * rate t))) with (Fin (c + k * rate t)).
  change (sub (Fin r) (Fin k)) with (Fin (r - k)).
  rewrite le_fin_bool; reflexivity.
Qed.

Lemma tierLoop_finite (l : list Tier) (c r : Q) :
  exists q, tierLoop l (Fin c) (Fin r) = Fin q.
Proof.
  revert c r; induction l as [| t l IH]; intros c r; [cbn; eauto |].
  destruct (tier_step t l c r) as (k & E & _); rewrite E.
  destruct (Qle_bool (r - k) 0); eauto.
Qed.

(** With proper limits the loop is the specification's consumption. *)
Lemma tierLoop_spec (l : list Tier) (c r : Q) :
  Forall Spec.properLimit l ->
  tierLoop l (Fin c) (Fin r) = Fin (Spec.consumeTiers l c r).
Proof.
  intros H; revert c r; induction H as [| t l Ht Hl IH]; intros c r; [reflexivity |].
  destruct (tier_step t l c r) as (k & E & Hk); rewrite E; clear E.
  cbn [Spec.consumeTiers].
  assert (K : k = match limit t with Some x => Qmin r x | None => r end).
  { unfold Spec.properLimit in Ht; destruct (limit t) as [x |].
    - rewrite (or_else_nonzero x PInf Ht) in Hk; cbn [Math_min] in Hk; congruence.
    - cbn [field option_map or_else Math_min] in Hk; congruence. }
  rewrite <- K.
  destruct (Qle_bool (r - k) 0); [reflexivity | apply IH].
Qed.

Lemma consumeTiers_compat (l : list Tier) (c c' r r' : Q) :
  c == c' -> r == r' -> Spec.consumeTiers l c r == Spec.consumeTiers l c' r'.
Proof.
  revert c c' r r'; induction l as [| t l IH]; intros c c' r r' Hc Hr;
    cbn [Spec.consumeTiers]; [exact Hc |].
  set (k := match limit t with Some x => Qmin r x | None => r end).
  set (k' := match limit t with Some x => Qmin r' x | None => r' end).
  assert (Hk : k == k').
  { subst k k'; destruct (limit t); [rewrite Hr; reflexivity | exact Hr]. }
  assert (E : Qle_bool (r - k) 0 = Qle_bool (r' - k') 0)
    by (rewrite Hr, Hk; reflexivity).
  rewrite E; destruct (Qle_bool (r' - k') 0).
  - rewrite Hc, Hk; reflexivity.
  - apply IH; [rewrite Hc, Hk | rewrite Hr, Hk]; reflexivity.
Qed.



Lemma touRate_finite (p : Periods) (hour : Z) : exists q, touRate p hour = Fin q.
Proof.
  unfold touRate.
  destruct (or_else_finite (offPeak p) 0.08) as (a & ->).
  destruct (or_else_finite (midPeak p) 0.13) as (b & ->).
  destruct (or_else_finite (onPeak p) 0.18) as (d & ->).
  repeat match goal with |- context [if ?b then _ else _] => destruct b end; eauto.
Qed.

Lemma fold_tou (p : Periods) (U : list UsageHour) (a : Q) :
  exists q,
    fold_left
      (fun cost usage =>
         add cost (mul (Fin (kWh usage)) (touRate p (getHours (timestamp usage)))))
      U (Fin a) = Fin q.
Proof.
  revert a; induction U as [| u U IH]; intros a; cbn [fold_left]; [eauto |].
  destruct (touRate_finite p (getHours (timestamp u))) as (q & ->).
  change (add (Fin a) (mul (Fin (kWh u)) (Fin q))) with (Fin (a + kWh u * q)).
  apply IH.
Qed.

(** Every plan costs a finite amount. *)
Lemma calculatePlanCost_finite (plan : PlanCatalog) (U : list UsageHour) :
  exists q, calculatePlanCost plan U = Fin q.
Proof.
  unfold calculatePlanCost.
  destruct (totalUsage_sum U) as (s & -> & _).
  destruct (type_is (schema plan) "tiered").
  - unfold calculateTieredCost; apply tierLoop_finite.
  - destruct (type_is (schema plan) "tou").
    + apply fold_tou.
    + destruct (or_else_finite (baseRate (schema plan)) 0.12) as (b & ->).
      cbn [mul]; eauto.
Qed.

(** *** Tiered plans *)

Lemma sumLimits_nonneg (l : list Tier) : Forall Spec.bounded l -> 0 <= Spec.sumLimits l.
Proof.
  induction 1 as [| t l Ht _ IH]; cbn [Spec.sumLimits fold_right]; [lra |].
  fold (Spec.sumLimits l); unfold Spec.bounded in Ht.
  destruct (limit t); [lra | contradiction].
Qed.

(** When the series uses more than all the tiers hold, the price is that
    of the filled tiers: the excess is not charged. *)
Lemma consumeTiers_exhausted (l : list Tier) (c r : Q) :
  Forall Spec.bounded l -> Spec.sumLimits l <= r ->
  Spec.consumeTiers l c r == c + Spec.filledCost l.
Proof.
  intros H; revert c r; induction H as [| t l Ht Hl IH]; intros c r Hr;
    cbn [Spec.consumeTiers Spec.filledCost Spec.sumLimits fold_right] in *.
  - lra.
  - fold (Spec.filledCost l); fold (Spec.sumLimits l) in Hr.
    pose proof (sumLimits_nonneg l Hl) as Hs.
    unfold Spec.bounded in Ht; destruct (limit t) as [x |]; [| contradiction].
    assert (M : Qmin r x == x) by (apply Q.min_r; lra).
    destruct (Qle_bool (r - Qmin r x) 0) eqn:E.
    + apply Qle_bool_iff in E; rewrite M in E |- *.
      destruct Hl as [| t' l' Ht' Hl'].
      * cbn [Spec.filledCost fold_right]; lra.
      * exfalso. cbn [Spec.sumLimits fold_right] in Hr, Hs.
        fold (Spec.sumLimits l') in Hr, Hs.
        pose proof (sumLimits_nonneg l' Hl') as Hs'.
        unfold Spec.bounded in Ht'; destruct (limit t'); [lra | contradiction].
    + rewrite (consumeTiers_compat l _ (c + x * rate t) _ (r - x));
        [| rewrite M; reflexivity | rewrite M; reflexivity].
      rewrite IH by lra. lra.
Qed.

(** Whatever the limits, the loop is the specification's consumption of
    the tiers as the route reads them. *)
Lemma tierLoop_effective (l : list Tier) (c r : Q) :
  tierLoop l (Fin c) (Fin r) = Fin (Spec.consumeTiers (map Spec.effectiveTier l) c r).
Proof.
  revert c r; induction l as [| t l IH]; intros c r; [reflexivity |].
  destruct (tier_step t l c r) as (k & E & Hk); rewrite E; clear E.
  cbn [map Spec.consumeTiers].
  assert (K : k = match limit (Spec.effectiveTier t) with
                  | Some x => Qmin r x
                  | None => r
                  end /\ rate (Spec.effectiveTier t) = rate t).
  { unfold Spec.effectiveTier; destruct (limit t) as [x |] eqn:L.
    - cbn [field option_map or_else truthy] in Hk.
      destruct (Qeq_bool x 0); cbn [negb Math_min limit rate] in *.
      + split; congruence.
      + rewrite L; split; congruence.
    - rewrite L; cbn [field option_map or_else Math_min] in Hk; split; congruence. }
  destruct K as [<- ->].
  destruct (Qle_bool (r - k) 0); [reflexivity | apply IH].
Qed.

(** C1, amended: on a tiered plan the cost is the specification's
    tier-by-tier consumption of the summed kWh
    ([consumed = min(remaining, limit)], [cost += consumed * rate],
    [remaining -= consumed], stop once [remaining <= 0]) where a limit of 0
    counts as no limit; so it is the consumption of the tiers as listed when
    no limit is 0; and when the tiers are all bounded and hold less than the
    total, only the filled tiers are charged, the excess costing nothing. *)
Theorem tiered_cost_consumes_tiers
    (plan : PlanCatalog) (U : list UsageHour) (l : list Tier) :
  type_is (schema plan) "tiered" = true ->
  tiers (schema plan) = Some l ->
  eqn (calculatePlanCost plan U)
      (Fin (Spec.tieredCost (map Spec.effectiveTier l) U)) /\
  (Forall Spec.properLimit l ->
   eqn (calculatePlanCost plan U) (Fin (Spec.tieredCost l U))) /\
  (Forall Spec.bounded l -> Spec.sumLimits l <= Spec.sumKWh U ->
   eqn (calculatePlanCost plan U) (Fin (Spec.filledCost l))).
Proof.
  intros Ht Hl.
  assert (E : forall f : list Tier -> list Tier,
             (forall c r, tierLoop l (Fin c) (Fin r) = Fin (Spec.consumeTiers (f l) c r)) ->
             eqn (calculatePlanCost plan U) (Fin (Spec.tieredCost (f l) U))).
  { intros f Hf; unfold calculatePlanCost; rewrite Ht.
    destruct (totalUsage_sum U) as (s & -> & Hs).
    unfold calculateTieredCost; rewrite Hl, Hf.
    cbn [eqn]; unfold Spec.tieredCost.
    apply consumeTiers_compat; [reflexivity | exact Hs]. }
  split; [| split].
  - apply (E (map Spec.effectiveTier)); intros; apply tierLoop_effective.
  - intros Hp; apply (E (fun x => x)); intros; apply tierLoop_spec; exact Hp.
  - intros Hb Hsum.
    assert (Hp : Forall Spec.properLimit l).
    { eapply Forall_impl; [| exact Hb].
      intros t; unfold Spec.bounded, Spec.properLimit.
      destruct (limit t); [lra | auto]. }
    apply eqn_trans with (Fin (Spec.tieredCost l U)).
    + apply (E (fun x => x)); intros; apply tierLoop_spec; exact Hp.
    + cbn [eqn]; unfold Spec.tieredCost.
      rewrite consumeTiers_exhausted by assumption. lra.
Qed.

(** The consumption as the specification words it fails on a tier of limit 0:
    tiers [{limit: 0, rate: 0.10}, {rate: 0.08}] and 150 kWh cost 15 in the
    route, where consuming [min(remaining, 0)] would give 12. *)
Lemma tiered_cost_zero_limit_counterexample :
  let l := [mkTier (Some 0) 0.10; mkTier None 0.08] in
  let U := [readingAt 0 150] in
  ~ eqn (calculatePlanCost (tieredPlan l) U) (Fin (Spec.tieredCost l U)) /\
  eqn (calculatePlanCost (tieredPlan l) U) (Fin 15) /\
  Spec.tieredCost l U == 12.
Proof.
  vm_compute; repeat split; intros H; discriminate H.
Qed.

Lemma tiered_cost_consumes_tiers_witness :
  let l := [mkTier (Some 100) 0.10; mkTier (Some 20) 0.08] in
  let U := [readingAt 0 100; readingAt 1 50] in
  eqn (calculatePlanCost (tieredPlan l) U) (Fin (Spec.tieredCost l U)) /\
  eqn (calculatePlanCost (tieredPlan l) U) (Fin (Spec.filledCost l)).
Proof.
  intros l U.
  assert (Hp : Forall Spec.properLimit l).
  { repeat constructor; unfold Spec.properLimit; cbn; intros H; discriminate H. }
  destruct (tiered_cost_consumes_tiers (tieredPlan l) U l eq_refl eq_refl)
    as (_ & H1 & H2).
  split; [exact (H1 Hp) |].
  apply H2.
  - repeat constructor.
  - vm_compute; intros H; discriminate H.
Defined.



(** *** Flat plans *)

Lemma or_else_orDefault (x : option Q) (d : Q) :
  or_else (field x) (Fin d) = Fin (Spec.orDefault x d).
Proof.
  destruct x as [q |]; cbn [field option_map or_else truthy Spec.orDefault];
    [| reflexivity].
  destruct (Qeq_bool q 0); reflexivity.
Qed.

Lemma orDefault_nonzero (q d : Q) : ~ q == 0 -> Spec.orDefault (Some q) d = q.
Proof.
  intros H; cbn [Spec.orDefault].
  destruct (Qeq_bool q 0) eqn:E; [| reflexivity].
  apply Qeq_bool_iff in E; contradiction.
Qed.

(** C5, amended: on a flat plan the cost is the rate times [sum(U.kWh)],
    where a rate of 0, or none, is replaced by the default rate 0.12; so a
    rate [r] other than 0 costs [r * sum(U.kWh)], and the empty series costs
    0 whatever the rate. *)
Theorem flat_cost_is_rate_times_total (plan : PlanCatalog) (U : list UsageHour) :
  type_is (schema plan) "tiered" = false ->
  type_is (schema plan) "tou" = false ->
  eqn (calculatePlanCost plan U)
      (Fin (Spec.orDefault (baseRate (schema plan)) 0.12 * Spec.sumKWh U)) /\
  (forall r : Q, baseRate (schema plan) = Some r -> ~ r == 0 ->
     eqn (calculatePlanCost plan U) (Fin (r * Spec.sumKWh U))) /\
  eqn (calculatePlanCost plan []) (Fin 0).
Proof.
  intros H1 H2; unfold calculatePlanCost; rewrite H1, H2, or_else_orDefault.
  destruct (totalUsage_sum U) as (s & -> & Hs).
  split; [| split].
  - cbn [mul eqn]; rewrite Hs; lra.
  - intros r -> Hr; rewrite orDefault_nonzero by exact Hr.
    cbn [mul eqn]; rewrite Hs; lra.
  - cbn [totalUsage fold_left mul eqn]; lra.
Qed.

(** A flat plan of rate 0 is charged at the default rate: 10 and 5 kWh
    cost 1.80, not [0 * 15]. *)
Lemma flat_cost_zero_rate_counterexample :
  let U := [readingAt 0 10; readingAt 1 5] in
  ~ eqn (calculatePlanCost (flatPlan (Some 0)) U) (Fin (0 * Spec.sumKWh U)) /\
  eqn (calculatePlanCost (flatPlan (Some 0)) U) (Fin 1.80).
Proof.
  vm_compute; split; [intros H; discriminate H | reflexivity].
Qed.

Lemma flat_cost_is_rate_times_total_witness :
  let U := [readingAt 0 10; readingAt 1 5] in
  eqn (calculatePlanCost (flatPlan (Some 0.12)) U) (Fin (0.12 * Spec.sumKWh U)).
Proof.
  intros U.
  destruct (flat_cost_is_rate_times_total (flatPlan (Some 0.12)) U eq_refl eq_refl)
    as (_ & H & _).
  apply (H 0.12 eq_refl).
  vm_compute; intros E; discriminate E.
Defined.

(** *** Time-of-use plans *)

Lemma type_tou_not_tiered (s : Schema) :
  type_is s "tou" = true -> type_is s "tiered" = false.
Proof.
  unfold type_is; destruct (type s) as [t |]; [| discriminate].
  intros H; apply String.eqb_eq in H; subst t; reflexivity.
Qed.

(** The rate picked for an hour is the one of the specification's range
    table, over the rates with their defaults. *)
Lemma touRate_spec (p : Periods) (hour : Z) :
  touRate p hour =
  Fin (Spec.rateForHour
         (Spec.touTable (Spec.orDefault (midPeak p) 0.13) (Spec.orDefault (onPeak p) 0.18))
         (Spec.orDefault (offPeak p) 0.08) hour).
Proof.
  unfold touRate; rewrite !or_else_orDefault.
  unfold Spec.rateForHour, Spec.touTable; cbn [find fst snd].
  destruct ((7 <=? hour) && (hour <? 11))%Z; [reflexivity |].
  destruct ((11 <=? hour) && (hour <? 17))%Z; [reflexivity |].
  destruct ((17 <=? hour) && (hour <? 19))%Z; reflexivity.
Qed.

Lemma fold_tou_spec (p : Periods) (U : list UsageHour) (a : Q) :
  exists q,
    fold_left
      (fun cost usage =>
         add cost (mul (Fin (kWh usage)) (touRate p (getHours (timestamp usage)))))
      U (Fin a) = Fin q /\
    q == a + Spec.touCost (Spec.orDefault (offPeak p) 0.08)
                          (Spec.orDefault (midPeak p) 0.13)
                          (Spec.orDefault (onPeak p) 0.18) U.
Proof.
  revert a; induction U as [| u U IH]; intros a; cbn [fold_left Spec.touCost fold_right].
  - exists a; split; [reflexivity | lra].
  - rewrite touRate_spec.
    match goal with |- context [Fin (Spec.rateForHour ?t ?o ?h)] =>
      set (rt := Spec.rateForHour t o h) end.
    change (add (Fin a) (mul (Fin (kWh u)) (Fin rt))) with (Fin (a + kWh u * rt)).
    destruct (IH (a + kWh u * rt)) as (q & E & Hq).
    exists q; split; [exact E |].
    rewrite Hq; unfold Spec.touCost; lra.
Qed.

(** C4, amended: on a time-of-use plan the cost adds, reading by reading,
    the kWh times the rate of the reading's hour, the hours being split by
    the half-open ranges [7, 11) and [17, 19) (on-peak) and [11, 17)
    (mid-peak), any other hour being off-peak, where a rate of 0, or none,
    is replaced by its default (0.08 off-peak, 0.13 mid-peak, 0.18 on-peak).
    With rates 0.08, 0.13 and 0.18, 2 kWh at hour 8 cost 0.36 and 2 kWh at
    hour 2 cost 0.16. *)
Theorem tou_cost_by_hour (plan : PlanCatalog) (U : list UsageHour) :
  type_is (schema plan) "tou" = true ->
  let off := Spec.orDefault (offPeak (periods (schema plan))) 0.08 in
  let mid := Spec.orDefault (midPeak (periods (schema plan))) 0.13 in
  let on := Spec.orDefault (onPeak (periods (schema plan))) 0.18 in
  eqn (calculatePlanCost plan U) (Fin (Spec.touCost off mid on U)) /\
  (forall hour : Z,
     touRate (periods (schema plan)) hour =
       Fin (if ((7 <=? hour) && (hour <? 11) || (17 <=? hour) && (hour <? 19))%Z then on
            else if ((11 <=? hour) && (hour <? 17))%Z then mid
            else off)) /\
  (let p := touPlan (mkPeriods (Some 0.08) (Some 0.13) (Some 0.18)) in
   eqn (calculatePlanCost p [readingAt 8 2]) (Fin 0.36) /\
   eqn (calculatePlanCost p [readingAt 2 2]) (Fin 0.16)).
Proof.
  intros Ht off mid on.
  split; [| split].
  - unfold calculatePlanCost.
    rewrite (type_tou_not_tiered _ Ht), Ht.
    destruct (fold_tou_spec (periods (schema plan)) U 0) as (q & E & Hq).
    unfold calculateTOUCost; rewrite E; cbn [eqn]; rewrite Hq.
    subst off mid on; lra.
  - intros hour; unfold touRate; rewrite !or_else_orDefault.
    fold off; fold mid; fold on.
    destruct ((7 <=? hour) && (hour <? 11))%Z; [reflexivity |].
    destruct ((11 <=? hour) && (hour <? 17))%Z eqn:E2.
    + assert (E3 : ((17 <=? hour) && (hour <? 19))%Z = false) by lia.
      rewrite E3; reflexivity.
    + destruct ((17 <=? hour) && (hour <? 19))%Z; reflexivity.
  - vm_compute; split; reflexivity.
Qed.

(** A plan whose off-peak rate is 0 is charged 0.08 off-peak: 2 kWh at
    hour 2 cost 0.16, not 0. *)
Lemma tou_cost_zero_rate_counterexample :
  let plan := touPlan (mkPeriods (Some 0) (Some 0.13) (Some 0.18)) in
  let U := [readingAt 2 2] in
  ~ eqn (calculatePlanCost plan U) (Fin (Spec.touCost 0 0.13 0.18 U)) /\
  eqn (calculatePlanCost plan U) (Fin 0.16).
Proof.
  vm_compute; split; [intros H; discriminate H | reflexivity].
Qed.

Lemma tou_cost_by_hour_witness :
  let plan := touPlan (mkPeriods (Some 0.08) (Some 0.13) (Some 0.18)) in
  let U := [readingAt 8 2; readingAt 2 2; readingAt 12 1] in
  eqn (calculatePlanCost plan U) (Fin (Spec.touCost 0.08 0.13 0.18 U)).
Proof.
  intros plan U.
  exact (proj1 (tou_cost_by_hour plan U eq_refl)).
Defined.

(** *** The ranker *)

Lemma calculateCurrentCost_finite (U : list UsageHour) :
  exists q, calculateCurrentCost U = Fin q.
Proof.
  unfold calculateCurrentCost.
  destruct (totalUsage_sum U) as (s & -> & _); cbn [mul]; eauto.
Qed.

Lemma currentCostOf_finite (account : UtilityAccount) (U : list UsageHour) (e : Q) :
  exists q, currentCostOf account U (Fin e) = Fin q.
Proof.
  unfold currentCostOf; destruct (truthyStr (account_provider account)); eauto.
  apply calculateCurrentCost_finite.
Qed.

(** The savings of a candidate are a finite figure: four times what the
    baseline exceeds the estimate by, or 0. *)
Lemma savings_formula (account : UtilityAccount) (U : list UsageHour) (plan : PlanCatalog) :
  exists c e,
    calculatePlanCost plan U = Fin e /\
    currentCostOf account U (calculatePlanCost plan U) = Fin c /\
    estimatedAnnualSavings (comparisonOf account U plan) = Fin (Qmax 0 ((c - e) * 4)).
Proof.
  destruct (calculatePlanCost_finite plan U) as (e & He).
  destruct (currentCostOf_finite account U e) as (c & Hc).
  exists c, e; rewrite He; repeat split; [exact Hc |].
  cbn [comparisonOf estimatedAnnualSavings]; rewrite He, Hc; reflexivity.
Qed.

Lemma comparisons_finite (account : UtilityAccount) (U : list UsageHour)
    (plans : list PlanCatalog) :
  Forall Spec.finiteSavings (map (comparisonOf account U) plans).
Proof.
  apply Forall_forall; intros r Hr; apply in_map_iff in Hr.
  destruct Hr as (plan & <- & _).
  destruct (savings_formula account U plan) as (c & e & _ & _ & H).
  eexists; exact H.
Qed.

Lemma sorted_by_savings (l : list PlanComparison) :
  Forall Spec.finiteSavings l -> StronglySorted Spec.savingsGe (sort Spec.bySavings l).
Proof.
  apply sort_sorted; unfold Spec.finiteSavings, Spec.savingsGe, Spec.bySavings.
  - intros x y (qx & Hx) (qy & Hy); rewrite Hx, Hy.
    change (sub (Fin qy) (Fin qx)) with (Fin (qy - qx)).
    intros H; apply gt_fin in H; apply le_fin; lra.
  - intros x y (qx & Hx) (qy & Hy); rewrite Hx, Hy.
    change (sub (Fin qy) (Fin qx)) with (Fin (qy - qx)).
    intros H; apply gt_fin_false in H; apply le_fin; lra.
  - intros x y z (qx & Hx) (qy & Hy) (qz & Hz); rewrite Hx, Hy, Hz.
    intros H1 H2; apply le_fin in H1, H2; apply le_fin; lra.
Qed.

(** C6: the recommendations are in non-increasing order of
    [estimatedAnnualSavings]; there are at most 5 of them and at most as
    many as there are active candidate plans, namely the smaller of the two
    numbers; and they are candidates' comparisons, all of them when there
    are no more than 5. *)
Theorem recommendations_sorted_top5
    (now : Date) (req : CompareRequest) (account : UtilityAccount)
    (U : list UsageHour) (plans : list PlanCatalog) :
  let recs := recommendations (handleCompare now req account U plans) in
  StronglySorted Spec.savingsGe recs /\
  (List.length recs <= 5)%nat /\
  (List.length recs <= List.length plans)%nat /\
  List.length recs = Nat.min 5 (List.length plans) /\
  exists rest,
    Permutation (recs ++ rest) (map (comparisonOf account U) plans) /\
    List.length rest = (List.length plans - 5)%nat.
Proof.
  cbn [handleCompare recommendations]; unfold slice0.
  fold Spec.bySavings.
  set (sorted := sort Spec.bySavings (map (comparisonOf account U) plans)).
  assert (L : List.length sorted = List.length plans)
    by (subst sorted; rewrite sort_length, length_map; reflexivity).
  assert (N : List.length (firstn 5 sorted) = Nat.min 5 (List.length plans))
    by (rewrite length_firstn, L; reflexivity).
  split; [| split; [| split; [| split]]].
  - apply firstn_sorted, sorted_by_savings, comparisons_finite.
  - rewrite N; lia.
  - rewrite N; lia.
  - exact N.
  - exists (skipn 5 sorted); split.
    + rewrite firstn_skipn; apply sort_perm.
    + rewrite length_skipn, L; reflexivity.
Qed.

(** C2, amended: every recommendation is the comparison of a candidate
    plan, and its [estimatedAnnualSavings] is
    [max(0, (currentCost - estimatedCost) * 4)]: the factor is the constant
    4 (a three-month period is assumed), whatever the length of the
    analysis window. *)
Theorem annual_savings_factor_is_4
    (now : Date) (req : CompareRequest) (account : UtilityAccount)
    (U : list UsageHour) (plans : list PlanCatalog) (rec : PlanComparison) :
  In rec (recommendations (handleCompare now req account U plans)) ->
  exists plan,
    In plan plans /\ planId rec = id plan /\
    let estimatedCost := calculatePlanCost plan U in
    let currentCost := currentCostOf account U estimatedCost in
    estimatedAnnualSavings rec =
      Math_max (Fin 0) (mul (sub currentCost estimatedCost) (Fin 4)) /\
    exists c e,
      estimatedCost = Fin e /\ currentCost = Fin c /\
      estimatedAnnualSavings rec = Fin (Qmax 0 ((c - e) * 4)).
Proof.
  cbn [handleCompare recommendations]; unfold slice0; intros H.
  apply firstn_In in H.
  apply (Permutation_in _ (sort_perm _ _)) in H.
  apply in_map_iff in H; destruct H as (plan & <- & Hp).
  exists plan; repeat split; [exact Hp |].
  destruct (savings_formula account U plan) as (c & e & He & Hc & Hs).
  exists c, e; auto.
Qed.

(** Over the default window of 90 days the specification's factor is
    [365 / 90]: with a baseline of 15 and an estimate of 10 it asks for
    savings of about 20.28, where the route answers 20. *)
Lemma annual_savings_window_counterexample :
  let now := (100 * msPerDay)%Z in
  let U := [mkUsage (50 * msPerDay)%Z 100] in
  let plan := flatPlan (Some 0.10) in
  let resp := handleCompare now (mkRequest None None) (mkAccount (Some "Acme"%string))
                            U [plan] in
  let windowDays :=
    inject_Z ((analysisPeriod_endDate resp - analysisPeriod_startDate resp) / msPerDay) in
  windowDays == 90 /\
  eqn (calculateCurrentCost U) (Fin 15) /\
  eqn (calculatePlanCost plan U) (Fin 10) /\
  Forall2 eqn (map estimatedAnnualSavings (recommendations resp)) [Fin 20] /\
  ~ Forall2 eqn (map estimatedAnnualSavings (recommendations resp))
                [Fin (Spec.annualSavings 15 10 windowDays)].
Proof.
  vm_compute; repeat split.
  - repeat constructor.
  - intros H; inversion H as [| ? ? ? ? E _]; discriminate E.
Qed.

Lemma annual_savings_factor_is_4_witness :
  let U := [mkUsage 0%Z 100] in
  let account := mkAccount (Some "Acme"%string) in
  let rec := comparisonOf account U (flatPlan (Some 0.10)) in
  exists plan,
    In plan [flatPlan (Some 0.10)] /\ planId rec = id plan /\
    let estimatedCost := calculatePlanCost plan U in
    let currentCost := currentCostOf account U estimatedCost in
    estimatedAnnualSavings rec =
      Math_max (Fin 0) (mul (sub currentCost estimatedCost) (Fin 4)) /\
    exists c e,
      estimatedCost = Fin e /\ currentCost = Fin c /\
      estimatedAnnualSavings rec = Fin (Qmax 0 ((c - e) * 4)).
Proof.
  intros U account rec.
  apply (annual_savings_factor_is_4 0%Z (mkRequest None None) account U
           [flatPlan (Some 0.10)] rec).
  left; reflexivity.
Defined.

(** Without a current provider every candidate saves nothing. *)
Lemma savings_without_provider
    (account : UtilityAccount) (U : list UsageHour) (plan : PlanCatalog) :
  truthyStr (account_provider account) = false ->
  exists q, estimatedAnnualSavings (comparisonOf account U plan) = Fin q /\ q == 0.
Proof.
  intros Hp.
  destruct (savings_formula account U plan) as (c & e & He & Hc & Hs).
  unfold currentCostOf in Hc; rewrite Hp, He in Hc.
  injection Hc as <-.
  eexists; split; [exact Hs |].
  apply Q.max_l; lra.
Qed.

(** C10: when the account has no current provider ([null] or the empty
    string), the baseline of each candidate is the candidate's own estimated
    cost, every recommendation has [estimatedAnnualSavings] 0, and the
    recommendations are the first five candidates in catalog order. *)
Theorem no_provider_zero_savings_catalog_order
    (now : Date) (req : CompareRequest) (account : UtilityAccount)
    (U : list UsageHour) (plans : list PlanCatalog) :
  truthyStr (account_provider account) = false ->
  let recs := recommendations (handleCompare now req account U plans) in
  (forall estimatedCost : num, currentCostOf account U estimatedCost = estimatedCost) /\
  Forall (fun r => eqn (estimatedAnnualSavings r) (Fin 0)) recs /\
  recs = firstn 5 (map (comparisonOf account U) plans) /\
  map planId recs = firstn 5 (map id plans).
Proof.
  intros Hp.
  assert (Z0 : forall r, In r (map (comparisonOf account U) plans) ->
               exists q, estimatedAnnualSavings r = Fin q /\ q == 0).
  { intros r Hr; apply in_map_iff in Hr; destruct Hr as (plan & <- & _).
    apply savings_without_provider; exact Hp. }
  assert (S : sort Spec.bySavings (map (comparisonOf account U) plans) =
              map (comparisonOf account U) plans).
  { apply sort_tied; intros x y Hx Hy.
    destruct (Z0 x Hx) as (qx & Ex & Zx), (Z0 y Hy) as (qy & Ey & Zy).
    unfold Spec.bySavings; rewrite Ex, Ey.
    change (sub (Fin qy) (Fin qx)) with (Fin (qy - qx)).
    apply gt_fin_false; lra. }
  cbn [handleCompare recommendations]; unfold slice0.
  fold Spec.bySavings; rewrite S.
  split; [| split; [| split]].
  - intros e; unfold currentCostOf; rewrite Hp; reflexivity.
  - apply Forall_forall; intros r Hr; apply firstn_In in Hr.
    destruct (Z0 r Hr) as (q & -> & Hq); exact Hq.
  - reflexivity.
  - rewrite <- firstn_map, map_map; reflexivity.
Qed.

Lemma no_provider_zero_savings_catalog_order_witness :
  let U := [readingAt 8 2; readingAt 2 3] in
  let plans :=
    [flatPlan (Some 0.20); touPlan (mkPeriods None None None);
     tieredPlan [mkTier (Some 1) 0.10; mkTier None 0.30]; flatPlan None;
     flatPlan (Some 0.05); flatPlan (Some 0.01)] in
  let recs :=
    recommendations (handleCompare 0%Z (mkRequest None None)
                                   (mkAccount (Some ""%string)) U plans) in
  Forall (fun r => eqn (estimatedAnnualSavings r) (Fin 0)) recs /\
  map planId recs = firstn 5 (map id plans).
Proof.
  intros U plans recs.
  destruct (no_provider_zero_savings_catalog_order 0%Z (mkRequest None None)
              (mkAccount (Some ""%string)) U plans eq_refl) as (_ & H1 & _ & H2).
  split; [exact H1 | exact H2].
Defined.

End CompareFacts.

(* ================================================================== *)
(** ** The prediction estimator *)

Module PredictFacts.

Import Predict JSFacts Samples.

(** *** Maps *)

Lemma map_get_set_same {V : Type} (k : Z) (v : V) (m : JSMap V) :
  map_get k (map_set k v m) = Some v.
Proof.
  induction m as [| [k' v'] m IH]; cbn [map_set map_get].
  - rewrite Z.eqb_refl; reflexivity.
  - destruct (k' =? k)%Z eqn:E; cbn [map_get].
    + rewrite Z.eqb_refl; reflexivity.
    + rewrite E; exact IH.
Qed.

Lemma map_set_keys {V : Type} (k d : Z) (v : V) (m : JSMap V) :
  In d (map fst (map_set k v m)) -> d = k \/ In d (map fst m).
Proof.
  induction m as [| [k0 v0] m IH]; cbn [map_set map fst In].
  - intros [H | []]; auto.
  - destruct (k0 =? k)%Z eqn:E; cbn [map fst In].
    + intros [H | H]; auto.
    + intros [H | H]; auto. destruct (IH H); auto.
Qed.

Lemma map_set_nonempty {V : Type} (k : Z) (v : V) (m : JSMap V) : map_set k v m <> [].
Proof.
  destruct m as [| [k0 v0] m]; cbn [map_set]; [discriminate |].
  destruct (k0 =? k)%Z; discriminate.
Qed.

(** *** [calculateAnalytics] returns on a series that has a reading *)

Lemma addHourly_nonempty (m : JSMap (list num)) (u : UsageHour) : addHourly m u <> [].
Proof.
  unfold addHourly; destruct (map_has (getHours (timestamp u)) m) eqn:H.
  - unfold map_has in H.
    destruct (map_get (getHours (timestamp u)) m); [apply map_set_nonempty | discriminate].
  - rewrite map_get_set_same; apply map_set_nonempty.
Qed.

Lemma fold_addHourly_nonempty (U : list UsageHour) (m : JSMap (list num)) :
  m <> [] \/ U <> [] -> fold_left addHourly U m <> [].
Proof.
  revert m; induction U as [| u U IH]; intros m H; cbn [fold_left].
  - destruct H as [H | H]; [exact H | contradiction].
  - apply IH; left; apply addHourly_nonempty.
Qed.

Lemma calculateAnalytics_some (U : list UsageHour) :
  U <> [] -> exists a, calculateAnalytics U = Some a.
Proof.
  intros HU; unfold calculateAnalytics.
  match goal with |- context [sort ?c ?l] => set (s := sort c l) end.
  assert (N : s <> []).
  { intros E; apply (f_equal (@List.length _)) in E.
    subst s; rewrite sort_length, length_map in E.
    apply length_zero_iff_nil in E.
    revert E; apply fold_addHourly_nonempty; right; exact HU. }
  destruct s; [contradiction | eauto].
Qed.

Lemma fold_addDaily_keys (U : list UsageHour) (m : JSMap num) (d : Z) :
  In d (map fst (fold_left addDaily U m)) ->
  In d (map fst m) \/ exists u, In u U /\ d = isoDate (timestamp u).
Proof.
  revert m; induction U as [| u U IH]; intros m H; cbn [fold_left] in H; [auto |].
  destruct (IH _ H) as [K | (u' & Hu & ->)].
  - unfold addDaily in K; apply map_set_keys in K.
    destruct K as [-> | K]; [right; exists u; split; [left |]; reflexivity | auto].
  - right; exists u'; split; [right; exact Hu | reflexivity].
Qed.

(** *** What [generatePredictions] returns *)

(** The predictions returned are the turns [i = 1, ..., floor(days)] of the
    loop, over one last date and one table of day-of-week averages. *)
Lemma generatePredictions_returned
    (U : list UsageHour) (days : Q) (analytics : PredictionAnalytics)
    (preds : list UsagePrediction) :
  generatePredictions U days analytics = Some preds ->
  exists lastDate averages,
    preds = map (predictionAt lastDate averages days analytics)
                (seq 1 (Z.to_nat (Qfloor days))).
Proof.
  unfold generatePredictions; destruct U as [| first rest]; [discriminate |].
  cbv beta iota zeta.
  destruct (fold_left pushTotal _ _) as [p |]; [| discriminate].
  intros E; injection E as <-; eauto.
Qed.

(** *** The data check *)

(** C3, amended: the estimator answers "Insufficient data" exactly when
    the series has fewer than 168 readings, however many calendar days
    they cover: every series of fewer than 168 readings is rejected, and a
    series of at least 168 readings is never rejected for want of data: its
    analytics are computed, and it is answered with the predictions that
    [generatePredictions] returns. *)
Theorem insufficient_data_below_168_readings (days : Q) (U : list UsageHour) :
  ((List.length U < 168)%nat ->
   handlePrediction days U =
     BadRequest "Insufficient data"
                "At least 7 days of usage data required for predictions") /\
  ((168 <= List.length U)%nat ->
   exists a,
     calculateAnalytics U = Some a /\
     ((exists body,
         handlePrediction days U = Ok body /\
         analytics body = a /\
         generatePredictions U days a = Some (predictions body) /\
         dataPoints (dataQuality body) = List.length U) \/
      (generatePredictions U days a = None /\
       handlePrediction days U = InternalServerError))).
Proof.
  unfold handlePrediction; split; intros H.
  - apply Nat.ltb_lt in H; rewrite H; reflexivity.
  - assert (L : (List.length U <? 168)%nat = false) by (apply Nat.ltb_ge; exact H).
    rewrite L.
    assert (HU : U <> []) by (intros ->; cbn in H; lia).
    destruct (calculateAnalytics_some U HU) as (a & ->).
    exists a; split; [reflexivity |].
    destruct (generatePredictions U days a) as [preds |].
    + left; eexists; repeat split.
    + right; split; reflexivity.
Qed.

(** Seven readings on seven distinct days are rejected, and 168 readings
    within a single day are accepted. *)
Lemma insufficient_data_counterexample :
  let week := series 7 msPerDay in
  let minutes := series 168 60000 in
  Spec.distinctDays week = 7%nat /\
  handlePrediction 7 week =
    BadRequest "Insufficient data"
               "At least 7 days of usage data required for predictions" /\
  Spec.distinctDays minutes = 1%nat /\
  exists body, handlePrediction 7 minutes = Ok body.
Proof.
  vm_compute; repeat split; eauto.
Qed.

Lemma insufficient_data_below_168_readings_witness :
  handlePrediction 7 (series 167 msPerHour) =
    BadRequest "Insufficient data"
               "At least 7 days of usage data required for predictions" /\
  exists a, calculateAnalytics (series 168 msPerHour) = Some a.
Proof.
  split.
  - apply (proj1 (insufficient_data_below_168_readings 7 (series 167 msPerHour))).
    vm_compute; lia.
  - destruct (proj2 (insufficient_data_below_168_readings 7 (series 168 msPerHour)))
      as (a & E & _).
    + vm_compute; lia.
    + exists a; exact E.
Defined.

(** *** The trend *)

(** C7, amended: on a daily series of fewer than 2 values the slope is
    the quotient [0 / 0], that is [NaN], not 0: the division by zero is not
    avoided; the trend label of the predictions is "stable" all the same,
    since both threshold comparisons are false on [NaN]. *)
Theorem degenerate_trend_is_NaN_and_stable (values : list num) :
  (List.length values < 2)%nat ->
  calculateTrend values = NaN /\
  forall (lastDate : Date) (averages : JSMap num) (days : Q)
         (analytics : PredictionAnalytics) (i : nat),
    monthlyTrend analytics = calculateTrend values ->
    trend (predictionAt lastDate averages days analytics i) = stable.
Proof.
  intros H.
  assert (E : calculateTrend values = NaN).
  { destruct values as [| v [| w values]]; [reflexivity | | cbn in H; lia].
    destruct v as [q | | |]; reflexivity. }
  split; [exact E |].
  intros lastDate averages days analytics i Hm.
  cbn [predictionAt trend]; rewrite Hm, E; reflexivity.
Qed.

(** The slope of a single day is [NaN], and 168 readings within one day
    go through the handler with that slope. *)
Lemma degenerate_trend_counterexample :
  ~ eqn (calculateTrend [Fin 5]) (Fin 0) /\
  calculateTrend [Fin 5] = NaN /\
  match handlePrediction 7 (series 168 60000) with
  | Ok body =>
      List.length (nodup Z.eq_dec (map (fun u => isoDate (timestamp u)) (series 168 60000)))
        = 1%nat /\
      monthlyTrend (analytics body) = NaN /\
      Forall (fun p => trend p = stable /\ predictedKWh p = NaN) (predictions body)
  | _ => False
  end.
Proof.
  vm_compute; repeat split; auto.
  repeat constructor.
Qed.

Lemma degenerate_trend_is_NaN_and_stable_witness :
  calculateTrend [Fin 5] = NaN /\
  trend (predictionAt 0%Z [] 7 (mkAnalytics (Fin 5) 0 0 (Fin 1) (Fin 1) NaN) 1) = stable.
Proof.
  assert (H : (List.length [Fin 5] < 2)%nat) by (cbn; lia).
  destruct (degenerate_trend_is_NaN_and_stable [Fin 5] H) as (H1 & H2).
  split; [exact H1 |].
  apply H2; cbn [monthlyTrend]; symmetry; exact H1.
Defined.

(** *** The confidence *)

Lemma div_fin (x y : Q) : ~ y == 0 -> div (Fin x) (Fin y) = Fin (x / y).
Proof.
  intros H; cbn [div].
  destruct (Qeq_bool y 0) eqn:E; [| reflexivity].
  apply Qeq_bool_iff in E; contradiction.
Qed.

(** The confidence written into a prediction is the specification's
    figure rounded to cents. *)
Lemma confidence_at (lastDate : Date) (averages : JSMap num) (days : Q)
    (analytics : PredictionAnalytics) (i : nat) :
  ~ days == 0 ->
  confidence (predictionAt lastDate averages days analytics i) =
  Fin (Spec.round2 (Spec.confidence i days)).
Proof.
  intros H; cbn [predictionAt confidence]; unfold ofNat.
  rewrite (div_fin _ days H).
  cbn [mul sub add neg Math_max Math_round].
  rewrite div_fin by (intros E; discriminate E).
  reflexivity.
Qed.

Lemma spec_confidence_antitone (i j : nat) (days : Q) :
  0 < days -> (i <= j)%nat -> Spec.confidence j days <= Spec.confidence i days.
Proof.
  intros Hd Hij; unfold Spec.confidence.
  apply Q.max_le_compat_l.
  assert (I : inject_Z (Z.of_nat i) <= inject_Z (Z.of_nat j))
    by (rewrite <- Zle_Qle; lia).
  assert (D : 0 < / days) by (apply Qinv_lt_0_compat; exact Hd).
  unfold Qdiv.
  assert (M : inject_Z (Z.of_nat i) * / days <= inject_Z (Z.of_nat j) * / days)
    by (apply Qmult_le_compat_r; [exact I | lra]).
  lra.
Qed.

Lemma round2_monotone (x y : Q) : x <= y -> Spec.round2 x <= Spec.round2 y.
Proof.
  intros H; unfold Spec.round2.
  assert (F : (Qfloor (x * 100 + (1 # 2)) <= Qfloor (y * 100 + (1 # 2)))%Z)
    by (apply Qfloor_resp_le; lra).
  rewrite Zle_Qle in F.
  unfold Qdiv; apply Qmult_le_compat_r; [exact F |].
  intros E; discriminate E.
Qed.

Lemma nth_error_map_seq {B : Type} (f : nat -> B) (s n i : nat) (p : B) :
  nth_error (map f (seq s n)) i = Some p -> (i < n)%nat /\ p = f (s + i)%nat.
Proof.
  revert s i; induction n as [| n IH]; intros s [| i]; cbn [seq map nth_error];
    try discriminate.
  - intros E; injection E as <-; split; [lia | f_equal; lia].
  - intros E; apply IH in E; destruct E as [L ->]; split; [lia | f_equal; lia].
Qed.

(** C8, amended: the predictions that [generatePredictions] returns are
    one for each day [i = 1, ..., floor(horizonDays)], and the confidence of
    the [i]-th is [max(0.5, 1 - (i / horizonDays) * 0.3)] rounded to cents
    ([Math.round(c * 100) / 100]); the confidences are non-increasing along
    the horizon and never below 0.5. *)
Theorem confidence_rounded_decay
    (U : list UsageHour) (days : Q) (analytics : PredictionAnalytics)
    (preds : list UsagePrediction) :
  generatePredictions U days analytics = Some preds ->
  List.length preds = Z.to_nat (Qfloor days) /\
  (forall i p, nth_error preds i = Some p ->
     confidence p = Fin (Spec.round2 (Spec.confidence (S i) days))) /\
  (forall i j p q, (i <= j)%nat ->
     nth_error preds i = Some p -> nth_error preds j = Some q ->
     le (confidence q) (confidence p) = true) /\
  (forall i p, nth_error preds i = Some p -> le (Fin 0.5) (confidence p) = true).
Proof.
  intros E.
  destruct (generatePredictions_returned U days analytics preds E)
    as (lastDate & averages & ->).
  split; [rewrite length_map, length_seq; reflexivity |].
  assert (P : forall i p,
             nth_error (map (predictionAt lastDate averages days analytics)
                            (seq 1 (Z.to_nat (Qfloor days)))) i = Some p ->
             0 < days /\
             confidence p = Fin (Spec.round2 (Spec.confidence (S i) days))).
  { intros i p Hp; apply nth_error_map_seq in Hp; destruct Hp as [Hi ->].
    assert (D : 1 <= days).
    { apply Qle_trans with (inject_Z (Qfloor days)); [| apply Qfloor_le].
      change 1 with (inject_Z 1); rewrite <- Zle_Qle; lia. }
    split; [lra |].
    apply confidence_at; lra. }
  split; [| split].
  - intros i p Hp; apply (P i p Hp).
  - intros i j p q Hij Hp Hq.
    destruct (P i p Hp) as [D ->], (P j q Hq) as [_ ->].
    apply le_fin, round2_monotone, spec_confidence_antitone; [exact D | lia].
  - intros i p Hp; destruct (P i p Hp) as [D ->].
    apply le_fin.
    apply Qle_trans with (Spec.round2 0.5); [vm_compute; intros C; discriminate C |].
    apply round2_monotone; unfold Spec.confidence; apply Q.le_max_l.
Qed.

(** Over a horizon of 7 days the first prediction carries 0.96, where the
    formula gives [1 - (1 / 7) * 0.3 = 67 / 70]. *)
Lemma confidence_rounded_counterexample :
  match handlePrediction 7 (series 168 msPerHour) with
  | Ok body =>
      match predictions body with
      | p :: _ =>
          eqn (confidence p) (Fin 0.96) /\
          Spec.confidence 1 7 == 67 # 70 /\
          ~ eqn (confidence p) (Fin (Spec.confidence 1 7))
      | [] => False
      end
  | _ => False
  end.
Proof.
  vm_compute; repeat split; intros H; discriminate H.
Qed.

Lemma confidence_rounded_decay_witness :
  exists preds,
    generatePredictions (series 3 msPerDay) 7 (mkAnalytics (Fin 1) 0 0 (Fin 1) (Fin 1) (Fin 0))
      = Some preds /\
    List.length preds = 7%nat /\
    (forall i p, nth_error preds i = Some p ->
       confidence p = Fin (Spec.round2 (Spec.confidence (S i) 7))).
Proof.
  assert (H : exists preds,
             generatePredictions (series 3 msPerDay) 7
               (mkAnalytics (Fin 1) 0 0 (Fin 1) (Fin 1) (Fin 0)) = Some preds)
    by (vm_compute; eexists; reflexivity).
  destruct H as (preds & E).
  destruct (confidence_rounded_decay (series 3 msPerDay) 7
              (mkAnalytics (Fin 1) 0 0 (Fin 1) (Fin 1) (Fin 0)) preds E)
    as (L & C & _).
  exists preds; split; [exact E |]; split; [exact L | exact C].
Defined.

End PredictFacts.

(* ================================================================== *)
(** ** Further properties of the plan comparison route *)

Module CompareExtra.

Import Compare JSFacts Samples CompareFacts.

(** *** The ranking *)

Lemma sorted_app_le {A : Type} (R : A -> A -> Prop) (l1 l2 : list A) :
  StronglySorted R (l1 ++ l2) ->
  forall x y, In x l1 -> In y l2 -> R x y.
Proof.
  induction l1 as [| a l1 IH]; cbn [app]; intros S x y Hx Hy; [destruct Hx |].
  inversion S as [| ? ? S' Fa]; subst.
  destruct Hx as [<- | Hx]; [| apply IH; assumption].
  rewrite Forall_forall in Fa; apply Fa, in_or_app; right; exact Hy.
Qed.

(** X1: the savings of every recommendation are a finite amount that is
    never negative. *)
Theorem savings_never_negative
    (now : Date) (req : CompareRequest) (account : UtilityAccount)
    (U : list UsageHour) (plans : list PlanCatalog) :
  Forall (fun rec => exists q, estimatedAnnualSavings rec = Fin q /\ 0 <= q)
         (recommendations (handleCompare now req account U plans)).
Proof.
  cbn [handleCompare recommendations]; unfold slice0.
  apply Forall_forall; intros rec H.
  apply firstn_In in H.
  apply (Permutation_in _ (sort_perm _ _)) in H.
  apply in_map_iff in H; destruct H as (plan & <- & _).
  destruct (savings_formula account U plan) as (c & e & _ & _ & ->).
  eexists; split; [reflexivity | apply Q.le_max_l].
Qed.

(** X2: the candidates split into the recommendations and the ones left
    out, and no candidate left out saves more than a recommended one. *)
Theorem recommendations_are_the_best
    (now : Date) (req : CompareRequest) (account : UtilityAccount)
    (U : list UsageHour) (plans : list PlanCatalog) :
  let recs := recommendations (handleCompare now req account U plans) in
  exists omitted,
    Permutation (recs ++ omitted) (map (comparisonOf account U) plans) /\
    forall rec other, In rec recs -> In other omitted ->
      le (estimatedAnnualSavings other) (estimatedAnnualSavings rec) = true.
Proof.
  cbn [handleCompare recommendations]; unfold slice0; fold Spec.bySavings.
  set (sorted := sort Spec.bySavings (map (comparisonOf account U) plans)).
  exists (skipn 5 sorted); split.
  - rewrite firstn_skipn; apply sort_perm.
  - assert (S : StronglySorted Spec.savingsGe (firstn 5 sorted ++ skipn 5 sorted)).
    { rewrite firstn_skipn; apply sorted_by_savings, comparisons_finite. }
    intros rec other Hr Ho; exact (sorted_app_le _ _ _ S rec other Hr Ho).
Qed.

(** Sorting keeps the candidates of one savings figure in their order. *)
Lemma insert_filter_same (q : Q) (x : PlanComparison) (l : list PlanComparison) :
  Spec.finiteSavings x -> Forall Spec.finiteSavings l ->
  filter (Props.sameSavings q) (insert Spec.bySavings x l) =
  filter (Props.sameSavings q) (x :: l).
Proof.
  intros (qx & Hx) Hl; induction Hl as [| y l (qy & Hy) Hl IH]; [reflexivity |].
  cbn [insert]; unfold Spec.bySavings at 1; rewrite Hx, Hy.
  change (sub (Fin qy) (Fin qx)) with (Fin (qy - qx)).
  destruct (gt (Fin (qy - qx)) (Fin 0)) eqn:G; [| reflexivity].
  apply gt_fin in G.
  assert (Px : Props.sameSavings q x = Qeq_bool qx q)
    by (unfold Props.sameSavings; rewrite Hx; reflexivity).
  assert (Py : Props.sameSavings q y = Qeq_bool qy q)
    by (unfold Props.sameSavings; rewrite Hy; reflexivity).
  cbn [filter] in *; rewrite IH, Px, Py.
  destruct (Qeq_bool qx q) eqn:Ex; [| reflexivity].
  destruct (Qeq_bool qy q) eqn:Ey; [| reflexivity].
  apply Qeq_bool_iff in Ex, Ey; lra.
Qed.

Lemma sort_filter_same (q : Q) (l : list PlanComparison) :
  Forall Spec.finiteSavings l ->
  filter (Props.sameSavings q) (sort Spec.bySavings l) =
  filter (Props.sameSavings q) l.
Proof.
  induction 1 as [| x l Hx Hl IH]; [reflexivity |].
  cbn [sort fold_right]; fold (sort Spec.bySavings l).
  rewrite insert_filter_same; [cbn [filter]; rewrite IH; reflexivity | exact Hx |].
  apply Forall_forall; intros z Hz.
  apply (Permutation_in _ (sort_perm _ l)) in Hz.
  rewrite Forall_forall in Hl; apply Hl; exact Hz.
Qed.

(** X3: the ranking is stable: for every savings figure, the
    recommendations with that figure are the first candidates with it, in
    catalog order. *)
Theorem ties_keep_catalog_order
    (now : Date) (req : CompareRequest) (account : UtilityAccount)
    (U : list UsageHour) (plans : list PlanCatalog) (q : Q) :
  let recs := recommendations (handleCompare now req account U plans) in
  exists later,
    filter (Props.sameSavings q) recs ++ later =
    filter (Props.sameSavings q) (map (comparisonOf account U) plans).
Proof.
  cbn [handleCompare recommendations]; unfold slice0; fold Spec.bySavings.
  set (sorted := sort Spec.bySavings (map (comparisonOf account U) plans)).
  exists (filter (Props.sameSavings q) (skipn 5 sorted)).
  rewrite <- filter_app, firstn_skipn.
  apply sort_filter_same, comparisons_finite.
Qed.

(** *** An empty series *)

Lemma plan_cost_of_nothing (plan : PlanCatalog) :
  Props.nonnegLimits plan ->
  exists e, calculatePlanCost plan [] = Fin e /\ e == 0.
Proof.
  intros Hn; unfold calculatePlanCost; cbn [totalUsage fold_left].
  destruct (type_is (schema plan) "tiered").
  - unfold calculateTieredCost, Props.nonnegLimits in *.
    destruct (tiers (schema plan)) as [[| t rest] |];
      try (exists 0; split; reflexivity).
    destruct (tier_step t rest 0 0) as (k & E & Hk); rewrite E; clear E.
    assert (K : k == 0).
    { apply Forall_inv in Hn.
      destruct (limit t) as [x |]; cbn [field option_map or_else truthy] in Hk.
      - destruct (Qeq_bool x 0); cbn [negb Math_min] in Hk; injection Hk as <-;
          [reflexivity | apply Q.min_l; exact Hn].
      - cbn [Math_min] in Hk; injection Hk as <-; reflexivity. }
    assert (L : Qle_bool (0 - k) 0 = true) by (apply Qle_bool_iff; lra).
    rewrite L; eexists; split; [reflexivity | rewrite K; lra].
  - destruct (type_is (schema plan) "tou").
    + exists 0; split; reflexivity.
    + destruct (or_else_finite (baseRate (schema plan)) 0.12) as (b & ->).
      eexists; split; [reflexivity | lra].
Qed.

(** X4: on an empty usage series, when no tier limit is negative, every
    recommendation has monthly cost, annual cost and savings 0, the
    recommendations are the first five candidates in catalog order, and the
    current plan's monthly cost and the total usage are 0. *)
Theorem empty_usage_all_zero
    (now : Date) (req : CompareRequest) (account : UtilityAccount)
    (plans : list PlanCatalog) :
  Forall Props.nonnegLimits plans ->
  let resp := handleCompare now req account [] plans in
  recommendations resp = firstn 5 (map (comparisonOf account []) plans) /\
  map planId (recommendations resp) = firstn 5 (map id plans) /\
  Forall (fun r => eqn (estimatedMonthlyCost r) (Fin 0) /\
                   eqn (estimatedAnnualCost r) (Fin 0) /\
                   eqn (estimatedAnnualSavings r) (Fin 0))
         (recommendations resp) /\
  eqn (currentPlan_estimatedMonthlyCost resp) (Fin 0) /\
  analysisPeriod_totalUsage resp = Fin 0.
Proof.
  intros Hn.
  assert (Z0 : forall r, In r (map (comparisonOf account []) plans) ->
               eqn (estimatedMonthlyCost r) (Fin 0) /\
               eqn (estimatedAnnualCost r) (Fin 0) /\
               exists q, estimatedAnnualSavings r = Fin q /\ q == 0).
  { intros r Hr; apply in_map_iff in Hr; destruct Hr as (plan & <- & Hp).
    rewrite Forall_forall in Hn.
    destruct (plan_cost_of_nothing plan (Hn plan Hp)) as (e & He & Ze).
    cbn [comparisonOf estimatedMonthlyCost estimatedAnnualCost estimatedAnnualSavings].
    rewrite He, (PredictFacts.div_fin e 3) by (intros C; discriminate C).
    assert (Hc : exists c, currentCostOf account [] (Fin e) = Fin c /\ c == 0).
    { unfold currentCostOf; destruct (truthyStr (account_provider account)).
      - eexists; split; [reflexivity | lra].
      - eexists; split; [reflexivity | exact Ze]. }
    destruct Hc as (c & -> & Zc).
    cbn [mul sub add neg Math_max eqn].
    split; [rewrite Ze; reflexivity |].
    split; [rewrite Ze; reflexivity |].
    eexists; split; [reflexivity |].
    apply Q.max_l; rewrite Zc, Ze; lra. }
  assert (S : sort Spec.bySavings (map (comparisonOf account []) plans) =
              map (comparisonOf account []) plans).
  { apply sort_tied; intros x y Hx Hy.
    destruct (Z0 x Hx) as (_ & _ & qx & Ex & Zx), (Z0 y Hy) as (_ & _ & qy & Ey & Zy).
    unfold Spec.bySavings; rewrite Ex, Ey.
    change (sub (Fin qy) (Fin qx)) with (Fin (qy - qx)).
    apply gt_fin_false; lra. }
  cbn [handleCompare recommendations currentPlan_estimatedMonthlyCost
       analysisPeriod_totalUsage]; unfold slice0.
  fold Spec.bySavings; rewrite S.
  split; [reflexivity |].
  split; [rewrite <- firstn_map, map_map; reflexivity |].
  split; [| split; [| reflexivity]].
  - apply Forall_forall; intros r Hr; apply firstn_In in Hr.
    destruct (Z0 r Hr) as (H1 & H2 & q & -> & Hq); auto.
  - unfold calculateCurrentCost; cbn [totalUsage fold_left mul].
    rewrite PredictFacts.div_fin by (intros C; discriminate C).
    cbn [eqn]; reflexivity.
Qed.

Lemma empty_usage_all_zero_witness :
  let plans :=
    [flatPlan (Some 0.20); tieredPlan [mkTier (Some 100) 0.10; mkTier None 0.08];
     touPlan (mkPeriods None None None)] in
  map planId (recommendations
                (handleCompare 0%Z (mkRequest None None)
                               (mkAccount (Some "Acme"%string)) [] plans))
  = firstn 5 (map id plans).
Proof.
  intros plans.
  assert (Hn : Forall Props.nonnegLimits plans).
  { repeat constructor; unfold Props.nonnegLimits; cbn; repeat constructor.
    intros C; discriminate C. }
  exact (proj1 (proj2 (empty_usage_all_zero 0%Z (mkRequest None None)
                         (mkAccount (Some "Acme"%string)) plans Hn))).
Defined.

(** *** Flat plans against the baseline *)

(** X6: with a provider on the account, a flat plan of rate [r] (0.12
    when the rate is 0 or missing) saves [4 * (0.15 - r) * sum(U.kWh)], or 0
    when that is negative; so on a series of non-negative total it saves
    nothing as soon as its rate is 0.15 or more. *)
Theorem flat_plan_savings
    (account : UtilityAccount) (U : list UsageHour) (plan : PlanCatalog) :
  truthyStr (account_provider account) = true ->
  Props.isFlat plan ->
  let r := Spec.orDefault (baseRate (schema plan)) 0.12 in
  eqn (estimatedAnnualSavings (comparisonOf account U plan))
      (Fin (Qmax 0 (4 * (0.15 - r) * Spec.sumKWh U))) /\
  (0 <= Spec.sumKWh U -> 0.15 <= r ->
   eqn (estimatedAnnualSavings (comparisonOf account U plan)) (Fin 0)).
Proof.
  intros Hp [H1 H2] r.
  assert (E : eqn (estimatedAnnualSavings (comparisonOf account U plan))
                  (Fin (Qmax 0 (4 * (0.15 - r) * Spec.sumKWh U)))).
  { cbn [comparisonOf estimatedAnnualSavings].
    unfold currentCostOf, calculateCurrentCost, calculatePlanCost.
    rewrite Hp, H1, H2, or_else_orDefault; fold r.
    destruct (totalUsage_sum U) as (s & -> & Hs).
    cbn [mul sub add neg Math_max eqn].
    apply Q.max_compat; [reflexivity | rewrite Hs; lra]. }
  split; [exact E |].
  intros Hs Hr; apply eqn_trans with (1 := E); cbn [eqn].
  apply Q.max_l; nra.
Qed.

Lemma flat_plan_savings_witness :
  eqn (estimatedAnnualSavings
         (comparisonOf (mkAccount (Some "Acme"%string)) [readingAt 0 100]
                       (flatPlan (Some 0.20))))
      (Fin 0).
Proof.
  refine (proj2 (flat_plan_savings (mkAccount (Some "Acme"%string)) [readingAt 0 100]
                   (flatPlan (Some 0.20)) eq_refl (conj eq_refl eq_refl)) _ _);
    vm_compute; intros C; discriminate C.
Defined.

(** *** Bounds on the cost of a plan *)





(** X8: a plan of two tiers, the first holding [L > 0] kWh at rate [r1]
    and the second unbounded at rate [r2], costs [total * r1] up to [L] and
    [L * r1 + (total - L) * r2] beyond. *)
Theorem two_tier_cost
    (plan : PlanCatalog) (U : list UsageHour) (L r1 r2 : Q) :
  type_is (schema plan) "tiered" = true ->
  tiers (schema plan) = Some [mkTier (Some L) r1; mkTier None r2] ->
  0 < L ->
  let total := Spec.sumKWh U in
  (total <= L -> eqn (calculatePlanCost plan U) (Fin (total * r1))) /\
  (L < total -> eqn (calculatePlanCost plan U) (Fin (L * r1 + (total - L) * r2))).
Proof.
  intros Ht Hl HL total.
  assert (E : eqn (calculatePlanCost plan U)
                  (Fin (Spec.consumeTiers [mkTier (Some L) r1; mkTier None r2] 0 total))).
  { unfold calculatePlanCost; rewrite Ht.
    destruct (totalUsage_sum U) as (s & -> & Es).
    unfold calculateTieredCost; rewrite Hl, tierLoop_spec.
    - cbn [eqn]; apply consumeTiers_compat; [reflexivity | exact Es].
    - repeat constructor; unfold Spec.properLimit; cbn [limit]; lra. }
  split; intros H; apply eqn_trans with (1 := E); cbn [eqn Spec.consumeTiers limit rate].
  - assert (M : Qmin total L == total) by (apply Q.min_l; exact H).
    assert (B : Qle_bool (total - Qmin total L) 0 = true)
      by (apply Qle_bool_iff; rewrite M; lra).
    rewrite B, M; lra.
  - assert (M : Qmin total L == L) by (apply Q.min_r; lra).
    assert (B : Qle_bool (total - Qmin total L) 0 = false).
    { destruct (Qle_bool (total - Qmin total L) 0) eqn:C; [| reflexivity].
      apply Qle_bool_iff in C; rewrite M in C; lra. }
    rewrite B.
    assert (B2 : Qle_bool (total - Qmin total L - (total - Qmin total L)) 0 = true)
      by (apply Qle_bool_iff; lra).
    rewrite B2, M; lra.
Qed.

Lemma two_tier_cost_witness :
  eqn (calculatePlanCost (tieredPlan [mkTier (Some 100) 0.10; mkTier None 0.08])
                         [readingAt 0 100; readingAt 1 50])
      (Fin (100 * 0.10 + (Spec.sumKWh [readingAt 0 100; readingAt 1 50] - 100) * 0.08)).
Proof.
  refine (proj2 (two_tier_cost (tieredPlan [mkTier (Some 100) 0.10; mkTier None 0.08])
                   [readingAt 0 100; readingAt 1 50] 100 0.10 0.08
                   eq_refl eq_refl _) _);
    vm_compute; reflexivity.
Defined.

(** *** Time of use *)





(** *** Type and features *)

(** X11: the plan type of a recommendation is never the empty string;
    its features are at most three and never repeat; and "Tiered pricing"
    (resp. "Time-of-Use pricing") is among them exactly when the plan type
    is "tiered" (resp. "tou"), so that the two never come together. *)
Theorem type_and_features_agree (s : Schema) :
  getPlanType s <> ""%string /\
  (List.length (getPlanFeatures s) <= 3)%nat /\
  NoDup (getPlanFeatures s) /\
  (In "Tiered pricing"%string (getPlanFeatures s) <-> getPlanType s = "tiered"%string) /\
  (In "Time-of-Use pricing"%string (getPlanFeatures s) <-> getPlanType s = "tou"%string).
Proof.
  unfold getPlanFeatures, getPlanType, type_is.
  destruct (type s) as [t |].
  - destruct (String.eqb t "tou") eqn:E1.
    + apply String.eqb_eq in E1; subst t; cbn [String.eqb Ascii.eqb Bool.eqb andb].
      destruct (greenEnergy s), (rewards s); cbn;
        repeat split; repeat constructor; cbn; intuition (try discriminate; try lia).
    + destruct (String.eqb t "tiered") eqn:E2.
      * apply String.eqb_eq in E2; subst t; cbn [String.eqb Ascii.eqb Bool.eqb andb].
        destruct (greenEnergy s), (rewards s); cbn;
          repeat split; repeat constructor; cbn; intuition (try discriminate; try lia).
      * apply String.eqb_neq in E1, E2.
        destruct (String.eqb t "") eqn:E3;
          [| apply String.eqb_neq in E3];
          destruct (greenEnergy s), (rewards s); cbn;
          repeat split; repeat constructor; cbn;
          intuition (try discriminate; try lia; try congruence).
  - destruct (greenEnergy s), (rewards s); cbn;
      repeat split; repeat constructor; cbn; intuition (try discriminate; try lia).
Qed.

End CompareExtra.

(* ================================================================== *)
(** ** Further properties of the prediction route *)

Module PredictExtra.

Import Predict JSFacts Samples PredictFacts.

(** *** The least-squares slope *)

Lemma qn_S (n : nat) : Props.qn (S n) == Props.qn n + 1.
Proof.
  unfold Props.qn; rewrite Nat2Z.inj_succ, <- Z.add_1_r, inject_Z_plus; reflexivity.
Qed.

Lemma qn_nonneg (n : nat) : 0 <= Props.qn n.
Proof. unfold Props.qn; change 0 with (inject_Z 0); rewrite <- Zle_Qle; lia. Qed.

Lemma qn_le (n m : nat) : (n <= m)%nat -> Props.qn n <= Props.qn m.
Proof. intros H; unfold Props.qn; rewrite <- Zle_Qle; lia. Qed.

(** The sum of the indices [s, ..., s + n - 1]. *)
Lemma sum_indices (n s : nat) (a : Q) :
  exists q,
    fold_left add (map ofNat (seq s n)) (Fin a) = Fin q /\
    q == a + Props.qn n * Props.qn s + Props.qn n * (Props.qn n - 1) / 2.
Proof.
  revert s a; induction n as [| n IH]; intros s a; cbn [seq map fold_left].
  - exists a; split; [reflexivity |].
    change (Props.qn 0) with 0; field.
  - change (add (Fin a) (ofNat s)) with (Fin (a + Props.qn s)).
    destruct (IH (S s) (a + Props.qn s)) as (q & E & Hq).
    exists q; split; [exact E |].
    rewrite Hq, !qn_S; field.
Qed.

(** The sum of their squares. *)
Lemma sum_squares (n s : nat) (a : Q) :
  exists q,
    fold_left (fun sum xi => add sum (mul xi xi)) (map ofNat (seq s n)) (Fin a) = Fin q /\
    q == a + Props.qn n * Props.qn s * Props.qn s
           + Props.qn s * Props.qn n * (Props.qn n - 1)
           + (Props.qn n - 1) * Props.qn n * (2 * Props.qn n - 1) / 6.
Proof.
  revert s a; induction n as [| n IH]; intros s a; cbn [seq map fold_left].
  - exists a; split; [reflexivity |].
    change (Props.qn 0) with 0; field.
  - change (add (Fin a) (mul (ofNat s) (ofNat s)))
      with (Fin (a + Props.qn s * Props.qn s)).
    destruct (IH (S s) (a + Props.qn s * Props.qn s)) as (q & E & Hq).
    exists q; split; [exact E |].
    rewrite Hq, !qn_S; field.
Qed.

Lemma sum_finite (values : list num) (a : Q) :
  Forall Props.finite values -> exists q, fold_left add values (Fin a) = Fin q.
Proof.
  intros H; revert a; induction H as [| v values (q & ->) _ IH]; intros a;
    cbn [fold_left]; [eauto |].
  apply IH.
Qed.

Lemma sum_products_finite (values : list num) (s : nat) (a : Q) :
  Forall Props.finite values ->
  exists q,
    fold_left (fun sum xy => add sum (mul (fst xy) (snd xy)))
              (combine (map ofNat (seq s (List.length values))) values) (Fin a) = Fin q.
Proof.
  intros H; revert s a; induction H as [| v values (q & ->) _ IH]; intros s a;
    cbn [List.length seq map combine fold_left fst snd]; [eauto |].
  apply IH.
Qed.

(** The denominator of the slope is [n^2 (n^2 - 1) / 12]: it vanishes for
    [n < 2] only. *)
Lemma slope_denominator (n : nat) (sx sx2 : Q) :
  sx == Props.qn n * (Props.qn n - 1) / 2 ->
  sx2 == (Props.qn n - 1) * Props.qn n * (2 * Props.qn n - 1) / 6 ->
  Props.qn n * sx2 - sx * sx
    == Props.qn n * Props.qn n * (Props.qn n - 1) * (Props.qn n + 1) / 12.
Proof. intros -> ->; field. Qed.

Lemma slope_denominator_pos (n : nat) :
  (2 <= n)%nat ->
  0 < Props.qn n * Props.qn n * (Props.qn n - 1) * (Props.qn n + 1) / 12.
Proof.
  intros H; pose proof (qn_le 2 n H) as L.
  change (Props.qn 2) with 2 in L.
  assert (P1 : 0 < Props.qn n * Props.qn n) by nra.
  assert (P2 : 0 < (Props.qn n - 1) * (Props.qn n + 1)) by nra.
  assert (P3 : 0 < Props.qn n * Props.qn n * ((Props.qn n - 1) * (Props.qn n + 1)))
    by (apply Qmult_lt_0_compat; assumption).
  unfold Qdiv; apply Qmult_lt_0_compat; [| reflexivity].
  setoid_replace (Props.qn n * Props.qn n * (Props.qn n - 1) * (Props.qn n + 1))
    with (Props.qn n * Props.qn n * ((Props.qn n - 1) * (Props.qn n + 1))) by ring.
  exact P3.
Qed.

(** The shape of the slope on finite values. *)
Lemma calculateTrend_finite_form (values : list num) :
  Forall Props.finite values ->
  (2 <= List.length values)%nat ->
  exists sy sxy sx sx2,
    JS.sum values = Fin sy /\
    fold_left (fun sum xy => add sum (mul (fst xy) (snd xy)))
              (combine (map ofNat (seq 0 (List.length values))) values) (Fin 0) = Fin sxy /\
    sx == Props.qn (List.length values) * (Props.qn (List.length values) - 1) / 2 /\
    sx2 == (Props.qn (List.length values) - 1) * Props.qn (List.length values)
           * (2 * Props.qn (List.length values) - 1) / 6 /\
    ~ Props.qn (List.length values) * sx2 - sx * sx == 0 /\
    calculateTrend values =
      Fin ((Props.qn (List.length values) * sxy - sx * sy)
           / (Props.qn (List.length values) * sx2 - sx * sx)).
Proof.
  intros Hf Hn; set (n := List.length values) in *.
  destruct (sum_finite values 0 Hf) as (sy & Ey).
  destruct (sum_products_finite values 0 0 Hf) as (sxy & Exy); fold n in Exy.
  destruct (sum_indices n 0 0) as (sx & Ex & Hx).
  destruct (sum_squares n 0 0) as (sx2 & Ex2 & Hx2).
  assert (Hx' : sx == Props.qn n * (Props.qn n - 1) / 2).
  { rewrite Hx; change (Props.qn 0) with 0; field. }
  assert (Hx2' : sx2 == (Props.qn n - 1) * Props.qn n * (2 * Props.qn n - 1) / 6).
  { rewrite Hx2; change (Props.qn 0) with 0; field. }
  assert (D : ~ Props.qn n * sx2 - sx * sx == 0).
  { rewrite (slope_denominator n sx sx2 Hx' Hx2').
    pose proof (slope_denominator_pos n Hn); lra. }
  exists sy, sxy, sx, sx2; repeat split; try assumption.
  unfold calculateTrend; fold n.
  unfold JS.sum in *; rewrite Ex, Ey, Exy, Ex2.
  change (ofNat n) with (Fin (Props.qn n)).
  cbn [mul sub add neg].
  apply div_fin; exact D.
Qed.

Lemma trend_finite_from_two_days_aux (values : list num) :
  Forall Props.finite values ->
  (2 <= List.length values)%nat ->
  exists q, calculateTrend values = Fin q.
Proof.
  intros Hf Hn.
  destruct (calculateTrend_finite_form values Hf Hn)
    as (sy & sxy & sx & sx2 & _ & _ & _ & _ & _ & E).
  eexists; exact E.
Qed.

(** X12: on two or more finite daily totals the slope is a finite
    number: its denominator [n^2 (n^2 - 1) / 12] is not 0. *)
Theorem trend_finite_from_two_days (values : list num) :
  Forall Props.finite values ->
  (2 <= List.length values)%nat ->
  exists q, calculateTrend values = Fin q.
Proof.
  intros Hf Hn.
  destruct (calculateTrend_finite_form values Hf Hn)
    as (sy & sxy & sx & sx2 & _ & _ & _ & _ & _ & E).
  eexists; exact E.
Qed.

Lemma trend_finite_from_two_days_witness :
  exists q, calculateTrend [Fin 1; Fin 2; Fin 4] = Fin q.
Proof.
  apply trend_finite_from_two_days.
  - repeat constructor; eexists; reflexivity.
  - cbn; lia.
Defined.

(** *** The daily totals *)

Lemma map_set_keys_in {V : Type} (k d : Z) (v : V) (m : JSMap V) :
  d = k \/ In d (map fst m) -> In d (map fst (map_set k v m)).
Proof.
  induction m as [| [k0 v0] m IH]; cbn [map_set map fst In].
  - intros [-> | []]; auto.
  - destruct (k0 =? k)%Z eqn:E; cbn [map fst In].
    + apply Z.eqb_eq in E; subst k0; intros [-> | [-> | H]]; auto.
    + intros [-> | [-> | H]]; auto.
Qed.

Lemma map_set_NoDup {V : Type} (k : Z) (v : V) (m : JSMap V) :
  NoDup (map fst m) -> NoDup (map fst (map_set k v m)).
Proof.
  induction m as [| [k0 v0] m IH]; cbn [map_set map fst]; intros H.
  - constructor; [intros [] | constructor].
  - inversion H as [| ? ? Hn Hm]; subst.
    destruct (k0 =? k)%Z eqn:E; cbn [map fst].
    + apply Z.eqb_eq in E; subst k0; constructor; assumption.
    + constructor; [| apply IH; exact Hm].
      intros C; apply map_set_keys in C; destruct C as [-> | C]; [| contradiction].
      rewrite Z.eqb_refl in E; discriminate.
Qed.

Lemma map_get_In {V : Type} (k : Z) (v : V) (m : JSMap V) :
  map_get k m = Some v -> In (k, v) m.
Proof.
  induction m as [| [k0 v0] m IH]; cbn [map_get]; [discriminate |].
  destruct (k0 =? k)%Z eqn:E.
  - apply Z.eqb_eq in E; subst k0; intros H; injection H as ->; left; reflexivity.
  - intros H; right; apply IH; exact H.
Qed.

Lemma map_set_entries {V : Type} (P : Z * V -> Prop) (k : Z) (v : V) (m : JSMap V) :
  P (k, v) -> Forall P m -> Forall P (map_set k v m).
Proof.
  intros Pv; induction 1 as [| [k0 v0] m H0 Hm IH]; cbn [map_set].
  - repeat constructor; exact Pv.
  - destruct (k0 =? k)%Z; constructor; assumption.
Qed.

(** Writing a finite value changes the sum of the map by what the value
    adds to the one it replaces. *)
Lemma map_set_sumQ (k : Z) (x : Q) (m : JSMap num) :
  Props.sumQ (map_set k (Fin x) m)
  == Props.sumQ m + x
     - match map_get k m with Some v => Props.toQ v | None => 0 end.
Proof.
  induction m as [| [k0 v0] m IH]; cbn [map_set map_get Props.sumQ fold_right snd].
  - cbn [Props.toQ]; lra.
  - destruct (k0 =? k)%Z; cbn [Props.sumQ fold_right snd Props.toQ].
    + fold (Props.sumQ m); lra.
    + fold (Props.sumQ m); fold (Props.sumQ (map_set k (Fin x) m)); rewrite IH; lra.
Qed.

Lemma addDaily_step (m : JSMap num) (u : UsageHour) :
  Forall Props.finiteEntry m ->
  Forall Props.finiteEntry (addDaily m u) /\
  Props.sumQ (addDaily m u) == Props.sumQ m + kWh u.
Proof.
  intros Hm; unfold addDaily.
  set (d := isoDate (timestamp u)).
  assert (V : exists x,
             add (or_else (map_get d m) (Fin 0)) (Fin (kWh u)) = Fin x /\
             x == kWh u + match map_get d m with Some v => Props.toQ v | None => 0 end).
  { destruct (map_get d m) as [v |] eqn:G; cbn [or_else].
    - apply map_get_In in G; rewrite Forall_forall in Hm.
      destruct (Hm _ G) as (q & Hq); cbn [snd] in Hq; subst v.
      cbn [truthy Props.toQ]; destruct (Qeq_bool q 0) eqn:Z; cbn [negb add].
      + apply Qeq_bool_iff in Z; eexists; split; [reflexivity | rewrite Z; lra].
      + eexists; split; [reflexivity | lra].
    - eexists; split; [reflexivity | lra]. }
  destruct V as (x & -> & Hx); split.
  - apply map_set_entries; [eexists; reflexivity | exact Hm].
  - rewrite map_set_sumQ, Hx; lra.
Qed.

Lemma fold_addDaily_sum (U : list UsageHour) (m : JSMap num) :
  Forall Props.finiteEntry m ->
  Forall Props.finiteEntry (fold_left addDaily U m) /\
  Props.sumQ (fold_left addDaily U m) == Props.sumQ m + Spec.sumKWh U.
Proof.
  revert m; induction U as [| u U IH]; intros m Hm;
    cbn [fold_left Spec.sumKWh fold_right].
  - split; [exact Hm | lra].
  - destruct (addDaily_step m u Hm) as [F S].
    destruct (IH _ F) as [F' S']; split; [exact F' |].
    rewrite S', S; fold (Spec.sumKWh U); lra.
Qed.

Lemma fold_addDaily_NoDup (U : list UsageHour) (m : JSMap num) :
  NoDup (map fst m) -> NoDup (map fst (fold_left addDaily U m)).
Proof.
  revert m; induction U as [| u U IH]; intros m H; cbn [fold_left]; [exact H |].
  apply IH; unfold addDaily; apply map_set_NoDup; exact H.
Qed.

Lemma fold_addDaily_covers (U : list UsageHour) (m : JSMap num) (d : Z) :
  In d (map fst m) \/ (exists u, In u U /\ d = isoDate (timestamp u)) ->
  In d (map fst (fold_left addDaily U m)).
Proof.
  revert m; induction U as [| u U IH]; intros m H; cbn [fold_left].
  - destruct H as [H | (u & [] & _)]; exact H.
  - apply IH; destruct H as [H | (u' & [-> | Hu] & ->)].
    + left; unfold addDaily; apply map_set_keys_in; right; exact H.
    + left; unfold addDaily; apply map_set_keys_in; left; reflexivity.
    + right; eauto.
Qed.

(** There is one daily total for each distinct calendar date, they are
    finite, and they add up to the total of the series. *)
Lemma dailyUsage_facts (U : list UsageHour) :
  List.length (Props.dailyUsage U) = Spec.distinctDays U /\
  Forall Props.finite (map_values (Props.dailyUsage U)) /\
  exists q, JS.sum (map_values (Props.dailyUsage U)) = Fin q /\ q == Spec.sumKWh U.
Proof.
  unfold Props.dailyUsage.
  destruct (fold_addDaily_sum U [] (Forall_nil _)) as [F S].
  split; [| split].
  - unfold Spec.distinctDays.
    rewrite <- (length_map fst).
    apply Permutation_length, NoDup_Permutation.
    + apply fold_addDaily_NoDup; constructor.
    + apply NoDup_nodup.
    + intros d; rewrite nodup_In; split.
      * intros H; apply fold_addDaily_keys in H.
        destruct H as [[] | (u & Hu & ->)].
        apply in_map_iff; exists u; auto.
      * intros H; apply in_map_iff in H; destruct H as (u & <- & Hu).
        apply fold_addDaily_covers; right; eauto.
  - unfold map_values; apply Forall_forall; intros v Hv.
    apply in_map_iff in Hv; destruct Hv as (e & <- & He).
    rewrite Forall_forall in F; exact (F e He).
  - revert F S; generalize (fold_left addDaily U []); intros m F S.
    cbn [Props.sumQ fold_right] in S.
    assert (G : forall a, exists q,
               fold_left add (map_values m) (Fin a) = Fin q /\ q == a + Props.sumQ m).
    { clear S; induction F as [| [k v] m (x & Hx) F IH]; intros a;
        cbn [map_values map fold_left Props.sumQ fold_right snd] in *.
      - exists a; split; [reflexivity | lra].
      - subst v; cbn [add Props.toQ].
        destruct (IH (a + x)) as (q & E & Hq).
        exists q; split; [exact E |].
        rewrite Hq; fold (Props.sumQ m); lra. }
    destruct (G 0) as (q & E & Hq).
    exists q; split; [exact E | rewrite Hq, S; lra].
Qed.

(** The fields of the analytics, read off [calculateAnalytics]. *)
Lemma calculateAnalytics_fields (U : list UsageHour) (a : PredictionAnalytics) :
  calculateAnalytics U = Some a ->
  averageDailyUsage a = average (map_values (Props.dailyUsage U)) /\
  monthlyTrend a = calculateTrend (map_values (Props.dailyUsage U)) /\
  exists first sorted,
    sort (fun x y => sub (snd y) (snd x)) (Props.hourlyAverages U) = first :: sorted /\
    peakUsageHour a = fst first /\
    lowestUsageHour a = fst (last (first :: sorted) first).
Proof.
  unfold calculateAnalytics, Props.dailyUsage, Props.hourlyAverages.
  match goal with |- context [sort ?c ?l] => set (s := sort c l) end.
  destruct s as [| first sorted] eqn:E; [discriminate |].
  intros H; injection H as <-; cbn [averageDailyUsage monthlyTrend peakUsageHour lowestUsageHour].
  split; [reflexivity | split; [reflexivity |]].
  exists first, sorted; repeat split.
Qed.

Lemma distinctDays_pos (U : list UsageHour) : U <> [] -> (1 <= Spec.distinctDays U)%nat.
Proof.
  intros HU; destruct U as [| u U]; [contradiction |].
  unfold Spec.distinctDays.
  destruct (nodup Z.eq_dec (map (fun u => isoDate (timestamp u)) (u :: U))) eqn:E;
    [| cbn; lia].
  exfalso.
  assert (I : In (isoDate (timestamp u))
                 (nodup Z.eq_dec (map (fun u => isoDate (timestamp u)) (u :: U))))
    by (apply nodup_In; left; reflexivity).
  rewrite E in I; destruct I.
Qed.

(** X14: the average daily usage is the total kWh of the series divided
    by the number of distinct calendar dates it covers. *)
Theorem average_daily_usage_is_total_over_days (U : list UsageHour) :
  U <> [] ->
  exists a,
    calculateAnalytics U = Some a /\
    eqn (averageDailyUsage a)
        (Fin (Spec.sumKWh U / Props.qn (Spec.distinctDays U))).
Proof.
  intros HU.
  destruct (calculateAnalytics_some U HU) as (a & Ea).
  exists a; split; [exact Ea |].
  destruct (calculateAnalytics_fields U a Ea) as (-> & _).
  destruct (dailyUsage_facts U) as (L & _ & q & Eq & Hq).
  unfold average, map_values in *; rewrite Eq, length_map, L.
  change (ofNat (Spec.distinctDays U)) with (Fin (Props.qn (Spec.distinctDays U))).
  pose proof (qn_le 1 _ (distinctDays_pos U HU)) as P.
  change (Props.qn 1) with 1 in P.
  rewrite div_fin by lra.
  cbn [eqn]; rewrite Hq; reflexivity.
Qed.

Lemma average_daily_usage_is_total_over_days_witness :
  exists a,
    calculateAnalytics (series 48 msPerHour) = Some a /\
    eqn (averageDailyUsage a)
        (Fin (Spec.sumKWh (series 48 msPerHour)
              / Props.qn (Spec.distinctDays (series 48 msPerHour)))).
Proof.
  apply average_daily_usage_is_total_over_days.
  vm_compute; discriminate.
Defined.

Lemma calculateTrend_short (values : list num) :
  (List.length values < 2)%nat -> calculateTrend values = NaN.
Proof.
  intros H; destruct values as [| v [| w values]]; [reflexivity | | cbn in H; lia].
  destruct v; reflexivity.
Qed.

(** X15: the slope of the analytics is [NaN] exactly when all the
    readings fall on one calendar date, and a finite number as soon as they
    cover two. *)
Theorem monthly_trend_needs_two_days (U : list UsageHour) :
  U <> [] ->
  exists a,
    calculateAnalytics U = Some a /\
    ((2 <= Spec.distinctDays U)%nat -> exists q, monthlyTrend a = Fin q) /\
    ((Spec.distinctDays U < 2)%nat -> monthlyTrend a = NaN).
Proof.
  intros HU.
  destruct (calculateAnalytics_some U HU) as (a & Ea).
  exists a; split; [exact Ea |].
  destruct (calculateAnalytics_fields U a Ea) as (_ & -> & _).
  destruct (dailyUsage_facts U) as (L & F & _).
  assert (Lv : List.length (map_values (Props.dailyUsage U)) = Spec.distinctDays U)
    by (unfold map_values; rewrite length_map; exact L).
  split; intros H.
  - apply trend_finite_from_two_days_aux; [exact F | rewrite Lv; exact H].
  - apply calculateTrend_short; rewrite Lv; exact H.
Qed.

Lemma monthly_trend_needs_two_days_witness :
  exists a,
    calculateAnalytics (series 48 msPerHour) = Some a /\
    exists q, monthlyTrend a = Fin q.
Proof.
  assert (H : series 48 msPerHour <> []) by (vm_compute; discriminate).
  destruct (monthly_trend_needs_two_days (series 48 msPerHour) H) as (a & E & H2 & _).
  exists a; split; [exact E |].
  apply H2; vm_compute; lia.
Defined.

(** *** Hourly series *)

Lemma isoDate_of_hourSlot (u : UsageHour) :
  isoDate (timestamp u) = (Props.hourSlot u / 24)%Z.
Proof.
  unfold isoDate, Props.hourSlot, msPerDay, msPerHour.
  rewrite Z.div_div by lia; reflexivity.
Qed.

(** A day holds 24 hours: a series without two readings in one hour has
    at most 24 readings a day. *)
Lemma hourly_length (U : list UsageHour) :
  Props.hourly U -> (List.length U <= 24 * Spec.distinctDays U)%nat.
Proof.
  intros H; unfold Spec.distinctDays.
  set (D := nodup Z.eq_dec (map (fun u => isoDate (timestamp u)) U)).
  set (slots := flat_map (fun d => map (fun j => (24 * d + Z.of_nat j)%Z) (seq 0 24)) D).
  assert (L : List.length slots = (List.length D * 24)%nat).
  { apply flat_map_constant_length; intros d _; rewrite length_map, length_seq; reflexivity. }
  assert (I : incl (map Props.hourSlot U) slots).
  { intros h Hh; apply in_map_iff in Hh; destruct Hh as (u & <- & Hu).
    apply in_flat_map; exists (isoDate (timestamp u)); split.
    - apply nodup_In, in_map_iff; exists u; auto.
    - rewrite isoDate_of_hourSlot.
      apply in_map_iff; exists (Z.to_nat (Props.hourSlot u mod 24)).
      pose proof (Z.mod_pos_bound (Props.hourSlot u) 24 ltac:(lia)) as B.
      split.
      + rewrite Z2Nat.id by lia.
        symmetry; apply Z.div_mod; lia.
      + apply in_seq; lia. }
  pose proof (NoDup_incl_length H I) as N.
  rewrite length_map in N; lia.
Qed.

(** What an answer of the handler tells of the request. *)
Lemma handlePrediction_answered
    (days : Q) (U : list UsageHour) (body : PredictionResponse) :
  handlePrediction days U = Ok body ->
  (168 <= List.length U)%nat /\
  calculateAnalytics U = Some (analytics body) /\
  generatePredictions U days (analytics body) = Some (predictions body) /\
  dataPoints (dataQuality body) = List.length U /\
  completeness (dataQuality body) =
    Math_min (Fin 100) (mul (div (ofNat (List.length U)) (Fin (90 * 24))) (Fin 100)).
Proof.
  unfold handlePrediction.
  destruct (List.length U <? 168)%nat eqn:L; [discriminate |].
  apply Nat.ltb_ge in L.
  destruct (calculateAnalytics U) as [a |]; [| discriminate].
  destruct (generatePredictions U days a) as [preds |] eqn:Ep; [| discriminate].
  intros E; injection E as <-; cbn [analytics predictions dataQuality dataPoints completeness].
  split; [exact L |].
  split; [reflexivity |].
  split; [exact Ep |].
  split; reflexivity.
Qed.

(** The slope over two calendar dates or more is a finite number. *)
Lemma monthlyTrend_finite (U : list UsageHour) (a : PredictionAnalytics) :
  calculateAnalytics U = Some a -> (2 <= Spec.distinctDays U)%nat ->
  exists q, monthlyTrend a = Fin q.
Proof.
  intros Ea D.
  destruct (calculateAnalytics_fields U a Ea) as (_ & -> & _).
  destruct (dailyUsage_facts U) as (Ld & F & _).
  apply trend_finite_from_two_days_aux; [exact F |].
  unfold map_values; rewrite length_map, Ld; exact D.
Qed.

(** X16: a series without two readings in the same hour has at most 24
    readings for each calendar date it covers; so when it has the 168
    readings the handler asks for, it covers at least 7 distinct dates and
    the slope of its analytics is a finite number, as it is in every answer
    the handler returns on such a series. *)
Theorem hourly_series_covers_seven_days (days : Q) (U : list UsageHour) :
  Props.hourly U ->
  (List.length U <= 24 * Spec.distinctDays U)%nat /\
  ((168 <= List.length U)%nat ->
   (7 <= Spec.distinctDays U)%nat /\
   exists a, calculateAnalytics U = Some a /\ exists q, monthlyTrend a = Fin q) /\
  (forall body, handlePrediction days U = Ok body ->
     (7 <= Spec.distinctDays U)%nat /\
     exists q, monthlyTrend (analytics body) = Fin q).
Proof.
  intros H; pose proof (hourly_length U H) as L.
  split; [exact L |]; split.
  - intros N.
    assert (HU : U <> []) by (intros ->; cbn in N; lia).
    destruct (calculateAnalytics_some U HU) as (a & Ea).
    split; [lia |].
    exists a; split; [exact Ea |].
    apply (monthlyTrend_finite U a Ea); lia.
  - intros body E.
    destruct (handlePrediction_answered days U body E) as (N & Ea & _).
    split; [lia |].
    apply (monthlyTrend_finite U _ Ea); lia.
Qed.

Lemma hourly_series_covers_seven_days_witness :
  (7 <= Spec.distinctDays (series 168 msPerHour))%nat /\
  exists a,
    calculateAnalytics (series 168 msPerHour) = Some a /\
    exists q, monthlyTrend a = Fin q.
Proof.
  assert (H : Props.hourly (series 168 msPerHour)).
  { unfold Props.hourly.
    assert (E : map Props.hourSlot (series 168 msPerHour)
                = map Z.of_nat (seq 0 168)) by (vm_compute; reflexivity).
    rewrite E; apply Finite.Injective_map_NoDup; [| apply seq_NoDup].
    intros x y; apply Nat2Z.inj. }
  apply (proj1 (proj2 (hourly_series_covers_seven_days 30 (series 168 msPerHour) H))).
  vm_compute; lia.
Defined.

(** *** The predictions *)

Lemma average_finite_or_NaN (values : list num) :
  Forall Props.finite values -> average values = NaN \/ Props.finite (average values).
Proof.
  intros H; unfold average, JS.sum.
  destruct values as [| v values]; [left; reflexivity | right].
  destruct (sum_finite (v :: values) 0 H) as (s & ->).
  change (ofNat (List.length (v :: values))) with (Fin (Props.qn (S (List.length values)))).
  rewrite div_fin; [eexists; reflexivity |].
  pose proof (qn_nonneg (List.length values)); rewrite qn_S; lra.
Qed.

Lemma fold_pushTotal_None (entries : JSMap num) : fold_left pushTotal entries None = None.
Proof. induction entries as [| e entries IH]; [reflexivity | exact IH]. Qed.

Lemma fold_pushTotal_finite
    (entries : JSMap num) (patterns p : JSMap (list num)) :
  Forall Props.finiteEntry entries -> Forall Props.finiteBucket patterns ->
  fold_left pushTotal entries (Some patterns) = Some p ->
  Forall Props.finiteBucket p.
Proof.
  intros He; revert patterns; induction He as [| e entries Fe He IH];
    intros patterns Hp; cbn [fold_left].
  - intros E; injection E as <-; exact Hp.
  - cbn [pushTotal].
    destruct (map_get (getDay (dateOfIso (fst e))) patterns) as [values |] eqn:G;
      [| rewrite fold_pushTotal_None; discriminate].
    apply IH, map_set_entries; [| exact Hp].
    unfold Props.finiteBucket; cbn [snd].
    apply Forall_app; split; [| repeat constructor; exact Fe].
    apply map_get_In in G; rewrite Forall_forall in Hp; exact (Hp _ G).
Qed.

Lemma fold_addPattern_finite (U : list UsageHour) (m : JSMap (list num)) :
  Forall Props.finiteBucket m -> Forall Props.finiteBucket (fold_left addPattern U m).
Proof.
  revert m; induction U as [| u U IH]; intros m H; cbn [fold_left]; [exact H |].
  apply IH; unfold addPattern.
  destruct (map_has (getDay (timestamp u)) m); [exact H |].
  apply map_set_entries; [constructor | exact H].
Qed.

(** The predictions returned, with what is known of the day-of-week
    averages they were computed from. *)
Lemma generatePredictions_shape
    (U : list UsageHour) (days : Q) (a : PredictionAnalytics)
    (preds : list UsagePrediction) :
  generatePredictions U days a = Some preds ->
  exists lastDate averages,
    preds = map (predictionAt lastDate averages days a)
                (seq 1 (Z.to_nat (Qfloor days))) /\
    Forall (fun e => snd e = NaN \/ Props.finite (snd e)) averages.
Proof.
  unfold generatePredictions; destruct U as [| first rest]; [discriminate |].
  cbv beta iota zeta.
  destruct (fold_left pushTotal _ _) as [p |] eqn:Ep; [| discriminate].
  intros E; injection E as <-.
  eexists _, _; split; [reflexivity |].
  assert (F : Forall Props.finiteBucket p).
  { apply (fold_pushTotal_finite _ _ _
             (proj1 (fold_addDaily_sum (first :: rest) [] (Forall_nil _)))
             (fold_addPattern_finite (first :: rest) [] (Forall_nil _)) Ep). }
  apply Forall_forall; intros e He; apply in_map_iff in He.
  destruct He as (b & <- & Hb); cbn [snd].
  rewrite Forall_forall in F; apply average_finite_or_NaN, (F b Hb).
Qed.

Lemma baseUsage_finite (averages : JSMap num) (k : Z) (d : Q) :
  Forall (fun e => snd e = NaN \/ Props.finite (snd e)) averages ->
  exists q, or_else (map_get k averages) (Fin d) = Fin q.
Proof.
  intros H; destruct (map_get k averages) as [v |] eqn:G; cbn [or_else]; [| eauto].
  apply map_get_In in G; rewrite Forall_forall in H.
  destruct (H _ G) as [E | (q & E)]; cbn [snd] in E; subst v; cbn [truthy]; [eauto |].
  destruct (negb (Qeq_bool q 0)); eauto.
Qed.

Lemma round2_nonneg (x : Q) : 0 <= x -> 0 <= Spec.round2 x.
Proof.
  intros H; apply Qle_trans with (Spec.round2 0); [vm_compute; discriminate |].
  apply round2_monotone; exact H.
Qed.

(** One prediction, when the analytics are finite. *)
Lemma predictionAt_facts
    (lastDate : Date) (averages : JSMap num) (days : Q)
    (a : PredictionAnalytics) (i : nat) :
  Forall (fun e => snd e = NaN \/ Props.finite (snd e)) averages ->
  Props.finite (averageDailyUsage a) -> Props.finite (monthlyTrend a) ->
  let p := predictionAt lastDate averages days a i in
  trend p = trendOf (monthlyTrend a) /\
  (exists q, predictedKWh p = Fin q /\ 0 <= q) /\
  (exists c, estimatedCost p = Fin c /\ 0 <= c).
Proof.
  intros Ha (d & Hd) (t & Ht); cbn zeta.
  cbn [predictionAt trend predictedKWh estimatedCost].
  split; [reflexivity |].
  rewrite Hd, Ht.
  destruct (baseUsage_finite averages (getDay (addDays lastDate (Z.of_nat i))) d Ha)
    as (b & ->).
  unfold ofNat; cbn [mul add Math_max Math_round].
  rewrite !div_fin by (intros C; discriminate C).
  split; eexists; (split; [reflexivity |]).
  - apply (round2_nonneg (Qmax 0 (b + t * inject_Z (Z.of_nat i)))), Q.le_max_l.
  - apply (round2_nonneg (Qmax 0 (b + t * inject_Z (Z.of_nat i)) * 0.15)).
    pose proof (Q.le_max_l 0 (b + t * inject_Z (Z.of_nat i))); lra.
Qed.

(** X17: when the handler answers a series that covers two calendar dates
    or more, the answer holds [floor(predictionDays)] predictions; all carry
    the label of the slope, and their [predictedKWh] and [estimatedCost] are
    finite amounts that are not negative. *)
Theorem predictions_are_finite_and_nonnegative
    (days : Q) (U : list UsageHour) (body : PredictionResponse) :
  handlePrediction days U = Ok body ->
  (2 <= Spec.distinctDays U)%nat ->
  List.length (predictions body) = Z.to_nat (Qfloor days) /\
  forall p, In p (predictions body) ->
    trend p = trendOf (monthlyTrend (analytics body)) /\
    (exists q, predictedKWh p = Fin q /\ 0 <= q) /\
    (exists c, estimatedCost p = Fin c /\ 0 <= c).
Proof.
  intros E D.
  destruct (handlePrediction_answered days U body E) as (_ & Ea & Ep & _).
  destruct (generatePredictions_shape U days (analytics body) _ Ep)
    as (lastDate & averages & Es & Fa).
  rewrite Es.
  split; [rewrite length_map, length_seq; reflexivity |].
  destruct (calculateAnalytics_fields U _ Ea) as (Avg & _).
  destruct (dailyUsage_facts U) as (Ld & F & s & Et & _).
  assert (Lv : List.length (map_values (Props.dailyUsage U)) = Spec.distinctDays U)
    by (unfold map_values; rewrite length_map; exact Ld).
  assert (Fa' : Props.finite (averageDailyUsage (analytics body))).
  { rewrite Avg; unfold average; rewrite Et, Lv.
    change (ofNat (Spec.distinctDays U)) with (Fin (Props.qn (Spec.distinctDays U))).
    pose proof (qn_le 2 _ D) as P; change (Props.qn 2) with 2 in P.
    rewrite div_fin by lra; eexists; reflexivity. }
  pose proof (monthlyTrend_finite U _ Ea D) as Ft.
  intros p Hp; apply in_map_iff in Hp; destruct Hp as (i & <- & _).
  exact (predictionAt_facts lastDate averages days (analytics body) i Fa Fa' Ft).
Qed.

Lemma predictions_are_finite_and_nonnegative_witness :
  exists body,
    handlePrediction 30 (series 168 msPerHour) = Ok body /\
    List.length (predictions body) = 30%nat.
Proof.
  assert (H : exists body, handlePrediction 30 (series 168 msPerHour) = Ok body)
    by (vm_compute; eexists; reflexivity).
  destruct H as (body & E).
  destruct (predictions_are_finite_and_nonnegative 30 (series 168 msPerHour) body E)
    as (L & _).
  - vm_compute; lia.
  - exists body; split; [exact E | exact L].
Defined.

(** *** The hours of the day *)

Lemma map_get_set_other {V : Type} (k h : Z) (v : V) (m : JSMap V) :
  k <> h -> map_get h (map_set k v m) = map_get h m.
Proof.
  intros N; induction m as [| [k0 v0] m IH]; cbn [map_set map_get].
  - destruct (k =? h)%Z eqn:E; [apply Z.eqb_eq in E; contradiction | reflexivity].
  - destruct (k0 =? k)%Z eqn:E; cbn [map_get].
    + apply Z.eqb_eq in E; subst k0.
      destruct (k =? h)%Z eqn:E'; [apply Z.eqb_eq in E'; contradiction | reflexivity].
    + destruct (k0 =? h)%Z; [reflexivity | exact IH].
Qed.

Lemma In_map_get {V : Type} (k : Z) (v : V) (m : JSMap V) :
  NoDup (map fst m) -> In (k, v) m -> map_get k m = Some v.
Proof.
  induction m as [| [k0 v0] m IH]; cbn [map fst map_get]; intros N H; [destruct H |].
  inversion N as [| ? ? Hn Nm]; subst.
  destruct H as [H | H].
  - injection H as -> ->; rewrite Z.eqb_refl; reflexivity.
  - destruct (k0 =? k)%Z eqn:E; [| apply IH; assumption].
    apply Z.eqb_eq in E; subst k0; exfalso; apply Hn.
    apply (in_map fst) in H; exact H.
Qed.

(** What one reading does to the bucket of an hour. *)
Lemma addHourly_get (m : JSMap (list num)) (u : UsageHour) (h : Z) :
  map_get h (addHourly m u) =
  if (getHours (timestamp u) =? h)%Z
  then Some (Props.bucket h m ++ [Fin (kWh u)])
  else map_get h m.
Proof.
  unfold addHourly, Props.bucket, map_has.
  set (k := getHours (timestamp u)).
  destruct (k =? h)%Z eqn:E.
  - apply Z.eqb_eq in E; subst h.
    destruct (map_get k m) as [values |] eqn:G.
    + rewrite G, map_get_set_same; reflexivity.
    + rewrite !map_get_set_same; reflexivity.
  - apply Z.eqb_neq in E.
    destruct (map_get k m) as [values |] eqn:G.
    + rewrite G, map_get_set_other by exact E; reflexivity.
    + rewrite map_get_set_same, !map_get_set_other by exact E; reflexivity.
Qed.

Lemma addHourly_NoDup (m : JSMap (list num)) (u : UsageHour) :
  NoDup (map fst m) -> NoDup (map fst (addHourly m u)).
Proof.
  intros H; unfold addHourly.
  destruct (map_has (getHours (timestamp u)) m).
  - destruct (map_get (getHours (timestamp u)) m); [apply map_set_NoDup |]; exact H.
  - rewrite map_get_set_same; apply map_set_NoDup, map_set_NoDup; exact H.
Qed.

Lemma fold_addHourly_NoDup (U : list UsageHour) (m : JSMap (list num)) :
  NoDup (map fst m) -> NoDup (map fst (fold_left addHourly U m)).
Proof.
  revert m; induction U as [| u U IH]; intros m H; cbn [fold_left]; [exact H |].
  apply IH, addHourly_NoDup; exact H.
Qed.

(** The bucket of an hour holds the readings of that hour, in order. *)
Lemma fold_addHourly_get (U : list UsageHour) (m : JSMap (list num)) (h : Z) :
  map_get h (fold_left addHourly U m) =
  if existsb (fun u => (getHours (timestamp u) =? h)%Z) U
  then Some (Props.bucket h m ++ Props.readingsAt h U)
  else map_get h m.
Proof.
  revert m; induction U as [| u U IH]; intros m;
    cbn [fold_left existsb]; [reflexivity |].
  rewrite IH; unfold Props.readingsAt, Props.bucket; cbn [filter].
  rewrite !addHourly_get; unfold Props.bucket.
  destruct (getHours (timestamp u) =? h)%Z; cbn [orb map].
  - rewrite <- app_assoc; cbn [app].
    destruct (existsb _ U) eqn:X; [reflexivity |].
    assert (F : filter (fun u0 => (getHours (timestamp u0) =? h)%Z) U = []).
    { clear IH; induction U as [| w U IHU]; [reflexivity |].
      cbn [existsb] in X; apply orb_false_iff in X; destruct X as [X1 X2].
      cbn [filter]; rewrite X1; apply IHU; exact X2. }
    rewrite F; reflexivity.
  - reflexivity.
Qed.

(** The hourly averages are, for each hour of the day that occurs, the
    mean of the readings taken at that hour. *)
Lemma hourlyAverages_entries (U : list UsageHour) (e : Z * num) :
  In e (Props.hourlyAverages U) <->
  (exists u, In u U /\ getHours (timestamp u) = fst e) /\
  snd e = Props.hourAverage (fst e) U.
Proof.
  unfold Props.hourlyAverages, Props.hourAverage.
  pose proof (fold_addHourly_NoDup U [] (NoDup_nil _)) as N.
  split.
  - intros H; apply in_map_iff in H; destruct H as ([h vs] & <- & Hb); cbn [fst snd].
    pose proof (In_map_get h vs _ N Hb) as G.
    rewrite fold_addHourly_get in G.
    destruct (existsb _ U) eqn:X; [| discriminate].
    injection G as <-; split; [| reflexivity].
    apply existsb_exists in X; destruct X as (u & Hu & E).
    exists u; split; [exact Hu | apply Z.eqb_eq; exact E].
  - destruct e as [h avg]; cbn [fst snd]; intros ((u & Hu & E) & ->).
    apply in_map_iff; exists (h, Props.readingsAt h U); split; [reflexivity |].
    apply map_get_In; rewrite fold_addHourly_get.
    assert (X : existsb (fun u => (getHours (timestamp u) =? h)%Z) U = true).
    { apply existsb_exists; exists u; split; [exact Hu | apply Z.eqb_eq; exact E]. }
    rewrite X; reflexivity.
Qed.

Lemma hourAverage_finite (U : list UsageHour) (u : UsageHour) :
  In u U -> Props.finite (Props.hourAverage (getHours (timestamp u)) U).
Proof.
  intros Hu; unfold Props.hourAverage, Props.readingsAt.
  set (l := filter _ U).
  assert (I : In u l) by (apply filter_In; split; [exact Hu | apply Z.eqb_refl]).
  assert (F : Forall Props.finite (map (fun u => Fin (kWh u)) l)).
  { apply Forall_forall; intros v Hv; apply in_map_iff in Hv.
    destruct Hv as (w & <- & _); eexists; reflexivity. }
  destruct (average_finite_or_NaN _ F) as [E | E]; [| exact E].
  exfalso; destruct l as [| w l]; [destruct I |].
  revert E; unfold average, JS.sum.
  destruct (sum_finite _ 0 F) as (s & ->).
  cbn [map List.length].
  change (ofNat (S (List.length (map (fun u => Fin (kWh u)) l))))
    with (Fin (Props.qn (S (List.length (map (fun u => Fin (kWh u)) l))))).
  rewrite div_fin; [discriminate |].
  pose proof (qn_nonneg (List.length (map (fun u => Fin (kWh u)) l))).
  rewrite qn_S; lra.
Qed.

Lemma last_In {A : Type} (l : list A) (d : A) : l <> [] -> In (last l d) l.
Proof.
  induction l as [| a l IH]; intros H; [contradiction |].
  destruct l as [| b l]; [left; reflexivity |].
  right; apply IH; discriminate.
Qed.

Lemma sorted_last {A : Type} (R : A -> A -> Prop) (l : list A) (d : A) :
  StronglySorted R l -> (forall x, In x l -> R x x) ->
  forall x, In x l -> R x (last l d).
Proof.
  induction 1 as [| a l S IH Fa]; intros Rr x Hx; [destruct Hx |].
  destruct l as [| b l].
  - destruct Hx as [<- | []]; apply Rr; left; reflexivity.
  - change (last (a :: b :: l) d) with (last (b :: l) d).
    destruct Hx as [<- | Hx].
    + rewrite Forall_forall in Fa; apply Fa, last_In; discriminate.
    + apply IH; [intros y Hy; apply Rr; right; exact Hy | exact Hx].
Qed.

Lemma hourlyAverages_sorted (U : list UsageHour) :
  StronglySorted (fun x y => le (snd y) (snd x) = true)
                 (sort (fun x y => sub (snd y) (snd x)) (Props.hourlyAverages U)).
Proof.
  apply sort_sorted with (P := fun e : Z * num => Props.finite (snd e)).
  - intros x y (qx & Hx) (qy & Hy); rewrite Hx, Hy.
    change (sub (Fin qy) (Fin qx)) with (Fin (qy - qx)).
    intros H; apply gt_fin in H; apply le_fin; lra.
  - intros x y (qx & Hx) (qy & Hy); rewrite Hx, Hy.
    change (sub (Fin qy) (Fin qx)) with (Fin (qy - qx)).
    intros H; apply gt_fin_false in H; apply le_fin; lra.
  - intros x y z (qx & Hx) (qy & Hy) (qz & Hz); rewrite Hx, Hy, Hz.
    intros H1 H2; apply le_fin in H1, H2; apply le_fin; lra.
  - apply Forall_forall; intros e He.
    apply hourlyAverages_entries in He; destruct He as ((u & Hu & E) & ->).
    rewrite <- E; apply hourAverage_finite; exact Hu.
Qed.

(** X18: the peak usage hour is an hour of the day at which some reading
    was taken and whose mean reading is the highest of all such hours; the
    lowest usage hour is one whose mean reading is the lowest. *)
Theorem peak_and_lowest_hours (U : list UsageHour) :
  U <> [] ->
  exists a,
    calculateAnalytics U = Some a /\
    (exists u, In u U /\ getHours (timestamp u) = peakUsageHour a) /\
    (exists u, In u U /\ getHours (timestamp u) = lowestUsageHour a) /\
    forall u, In u U ->
      le (Props.hourAverage (getHours (timestamp u)) U)
         (Props.hourAverage (peakUsageHour a) U) = true /\
      le (Props.hourAverage (lowestUsageHour a) U)
         (Props.hourAverage (getHours (timestamp u)) U) = true.
Proof.
  intros HU.
  destruct (calculateAnalytics_some U HU) as (a & Ea).
  exists a; split; [exact Ea |].
  destruct (calculateAnalytics_fields U a Ea) as (_ & _ & first & sorted & Es & -> & ->).
  pose proof (hourlyAverages_sorted U) as S; rewrite Es in S.
  pose proof (sort_perm (fun x y => sub (snd y) (snd x)) (Props.hourlyAverages U)) as Pm.
  rewrite Es in Pm.
  assert (In_S : forall e, In e (first :: sorted) ->
                 (exists u, In u U /\ getHours (timestamp u) = fst e) /\
                 snd e = Props.hourAverage (fst e) U).
  { intros e He; apply hourlyAverages_entries, (Permutation_in _ Pm), He. }
  assert (Refl : forall e, In e (first :: sorted) -> le (snd e) (snd e) = true).
  { intros e He; destruct (In_S e He) as ((u & Hu & E) & ->).
    rewrite <- E; destruct (hourAverage_finite U u Hu) as (q & ->).
    apply le_fin; lra. }
  assert (Lst : In (last (first :: sorted) first) (first :: sorted))
    by (apply last_In; discriminate).
  split; [exact (proj1 (In_S first (or_introl eq_refl))) |].
  split; [exact (proj1 (In_S _ Lst)) |].
  intros u Hu.
  set (e := (getHours (timestamp u), Props.hourAverage (getHours (timestamp u)) U)).
  assert (He : In e (first :: sorted)).
  { apply (Permutation_in _ (Permutation_sym Pm)), hourlyAverages_entries.
    split; [exists u; auto | reflexivity]. }
  split.
  - rewrite <- (proj2 (In_S first (or_introl eq_refl))).
    change (Props.hourAverage (getHours (timestamp u)) U) with (snd e).
    destruct He as [<- | He]; [apply Refl; left; reflexivity |].
    inversion S as [| ? ? _ Fa]; subst.
    rewrite Forall_forall in Fa; exact (Fa e He).
  - rewrite <- (proj2 (In_S _ Lst)).
    change (Props.hourAverage (getHours (timestamp u)) U) with (snd e).
    exact (sorted_last _ _ first S Refl e He).
Qed.

Lemma peak_and_lowest_hours_witness :
  exists a,
    calculateAnalytics [readingAt 8 2; readingAt 2 3; readingAt 8 6] = Some a /\
    (exists u, In u [readingAt 8 2; readingAt 2 3; readingAt 8 6] /\
               getHours (timestamp u) = peakUsageHour a).
Proof.
  destruct (peak_and_lowest_hours [readingAt 8 2; readingAt 2 3; readingAt 8 6])
    as (a & E & P & _).
  - discriminate.
  - exists a; split; [exact E | exact P].
Defined.

(** *** Weekdays and weekends *)

Lemma average_nonempty_finite (values : list num) :
  values <> [] -> Forall Props.finite values -> Props.finite (average values).
Proof.
  intros N F; destruct values as [| v values]; [contradiction |].
  unfold average, JS.sum; destruct (sum_finite _ 0 F) as (s & ->).
  change (ofNat (List.length (v :: values)))
    with (Fin (Props.qn (S (List.length values)))).
  rewrite div_fin; [eexists; reflexivity |].
  pose proof (qn_nonneg (List.length values)); rewrite qn_S; lra.
Qed.

Lemma calculateAnalytics_week (U : list UsageHour) (a : PredictionAnalytics) :
  calculateAnalytics U = Some a ->
  weekdayAverage a =
    average (map (fun u => Fin (kWh u))
                 (filter (fun u => negb (isWeekend (timestamp u))) U)) /\
  weekendAverage a =
    average (map (fun u => Fin (kWh u)) (filter (fun u => isWeekend (timestamp u)) U)).
Proof.
  unfold calculateAnalytics.
  match goal with |- context [sort ?c ?l] => set (s := sort c l) end.
  destruct s as [| first sorted]; [discriminate |].
  intros H; injection H as <-; split; reflexivity.
Qed.

Lemma average_of_filter (f : UsageHour -> bool) (U : list UsageHour) :
  ((forall u, In u U -> f u = false) ->
   average (map (fun u => Fin (kWh u)) (filter f U)) = NaN) /\
  ((exists u, In u U /\ f u = true) ->
   Props.finite (average (map (fun u => Fin (kWh u)) (filter f U)))).
Proof.
  split.
  - intros H.
    assert (E : filter f U = []).
    { induction U as [| u U IH]; [reflexivity |].
      cbn [filter]; rewrite (H u (or_introl eq_refl)).
      apply IH; intros w Hw; apply H; right; exact Hw. }
    rewrite E; reflexivity.
  - intros (u & Hu & Fu); apply average_nonempty_finite.
    + intros E; apply map_eq_nil in E.
      assert (I : In u (filter f U)) by (apply filter_In; auto).
      rewrite E in I; destruct I.
    + apply Forall_forall; intros v Hv; apply in_map_iff in Hv.
      destruct Hv as (w & <- & _); eexists; reflexivity.
Qed.

(** X19: the weekend average is [NaN] when no reading falls on a
    Saturday or Sunday and a finite mean otherwise; likewise the weekday
    average is [NaN] when every reading falls on a weekend. *)
Theorem week_averages_need_readings (U : list UsageHour) :
  U <> [] ->
  exists a,
    calculateAnalytics U = Some a /\
    ((forall u, In u U -> isWeekend (timestamp u) = false) -> weekendAverage a = NaN) /\
    ((exists u, In u U /\ isWeekend (timestamp u) = true) ->
     exists q, weekendAverage a = Fin q) /\
    ((forall u, In u U -> isWeekend (timestamp u) = true) -> weekdayAverage a = NaN) /\
    ((exists u, In u U /\ isWeekend (timestamp u) = false) ->
     exists q, weekdayAverage a = Fin q).
Proof.
  intros HU.
  destruct (calculateAnalytics_some U HU) as (a & Ea).
  exists a; split; [exact Ea |].
  destruct (calculateAnalytics_week U a Ea) as (-> & ->).
  destruct (average_of_filter (fun u => isWeekend (timestamp u)) U) as [W1 W2].
  destruct (average_of_filter (fun u => negb (isWeekend (timestamp u))) U) as [D1 D2].
  split; [exact W1 | split; [exact W2 | split]].
  - intros H; apply D1; intros u Hu; rewrite (H u Hu); reflexivity.
  - intros (u & Hu & E); apply D2; exists u; split; [exact Hu | rewrite E; reflexivity].
Qed.

Lemma week_averages_need_readings_witness :
  exists a,
    calculateAnalytics (series 24 msPerHour) = Some a /\ weekendAverage a = NaN.
Proof.
  assert (H : series 24 msPerHour <> []) by (vm_compute; discriminate).
  destruct (week_averages_need_readings (series 24 msPerHour) H) as (a & E & W & _).
  exists a; split; [exact E |].
  apply W; intros u Hu.
  apply in_map_iff in Hu; destruct Hu as (i & <- & Hi); apply in_seq in Hi.
  unfold isWeekend, getDay, msPerDay, msPerHour; cbn [timestamp].
  assert (D : (Z.of_nat i * 3600000 / 86400000 = 0)%Z)
    by (apply Z.div_small; lia).
  rewrite D; reflexivity.
Defined.

(** *** The quality figures *)

(** X20: an answer of the handler reports the number of readings as
    [dataPoints], of which there are 168 or more, and a completeness that
    lies above 7 and never above 100: it is 100 from 2160 readings on. *)
Theorem completeness_is_capped
    (days : Q) (U : list UsageHour) (body : PredictionResponse) :
  handlePrediction days U = Ok body ->
  (168 <= List.length U)%nat /\
  dataPoints (dataQuality body) = List.length U /\
  exists c,
    completeness (dataQuality body) = Fin c /\
    7 < c /\ c <= 100 /\
    ((2160 <= List.length U)%nat -> c == 100).
Proof.
  intros E.
  destruct (handlePrediction_answered days U body E) as (N & _ & _ & Dp & Cp).
  pose proof (qn_le 168 _ N) as Q168; change (Props.qn 168) with 168 in Q168.
  split; [exact N |].
  split; [exact Dp |].
  exists (Qmin 100 (Props.qn (List.length U) / (90 * 24) * 100)).
  split.
  { rewrite Cp; change (ofNat (List.length U)) with (Fin (Props.qn (List.length U))).
    rewrite div_fin by (intros C; discriminate C); reflexivity. }
  assert (V : Props.qn (List.length U) / (90 * 24) * 100
              == Props.qn (List.length U) * (100 / 2160)) by field.
  destruct (Q.min_spec 100 (Props.qn (List.length U) / (90 * 24) * 100))
    as [[L M] | [L M]]; rewrite M.
  - split; [lra | split; [lra | intros _; reflexivity]].
  - rewrite V in L |- *.
    assert (C : 100 / 2160 == 5 # 108) by reflexivity.
    rewrite C in L |- *.
    split; [lra | split; [lra |]].
    intros B; pose proof (qn_le 2160 _ B) as Q2160.
    change (Props.qn 2160) with 2160 in Q2160; lra.
Qed.

Lemma completeness_is_capped_witness :
  exists body c,
    handlePrediction 30 (series 168 msPerHour) = Ok body /\
    completeness (dataQuality body) = Fin c /\ 7 < c /\ c <= 100.
Proof.
  assert (H : exists body, handlePrediction 30 (series 168 msPerHour) = Ok body)
    by (vm_compute; eexists; reflexivity).
  destruct H as (body & E).
  destruct (completeness_is_capped 30 (series 168 msPerHour) body E)
    as (_ & _ & c & C & L & H & _).
  exists body, c; auto.
Defined.

(** *** A forecast without slope *)

Lemma getDay_week_later (d : Date) (i : nat) :
  getDay (addDays d (Z.of_nat (i + 7))) = getDay (addDays d (Z.of_nat i)).
Proof.
  unfold getDay, addDays, msPerDay.
  rewrite !Z.div_add by lia.
  replace (d / 86400000 + Z.of_nat (i + 7) + 4)%Z
    with (d / 86400000 + Z.of_nat i + 4 + 1 * 7)%Z by lia.
  apply Z.mod_add; lia.
Qed.

Lemma eqn_cases (x y : num) :
  eqn x y -> x = y \/ exists a b, x = Fin a /\ y = Fin b /\ a == b.
Proof.
  destruct x, y; cbn [eqn]; intros H; try contradiction; auto.
  right; eauto.
Qed.

Lemma round2_compat (x y : Q) : x == y -> Spec.round2 x == Spec.round2 y.
Proof.
  intros H; unfold Spec.round2.
  rewrite (Qfloor_comp (x * 100 + (1 # 2)) (y * 100 + (1 # 2))); [reflexivity |].
  rewrite H; reflexivity.
Qed.

(** The two rounded figures of a prediction depend on the number they
    round only. *)
Lemma rounded_figures_compat (x y : num) (rate : Q) :
  eqn x y ->
  eqn (div (Math_round (mul (Math_max (Fin 0) x) (Fin 100))) (Fin 100))
      (div (Math_round (mul (Math_max (Fin 0) y) (Fin 100))) (Fin 100)) /\
  eqn (div (Math_round (mul (mul (Math_max (Fin 0) x) (Fin rate)) (Fin 100))) (Fin 100))
      (div (Math_round (mul (mul (Math_max (Fin 0) y) (Fin rate)) (Fin 100))) (Fin 100)).
Proof.
  intros H; destruct (eqn_cases x y H) as [-> | (a & b & -> & -> & E)];
    [split; apply eqn_refl |].
  cbn [Math_max mul Math_round].
  rewrite !div_fin by (intros C; discriminate C).
  split; cbn [eqn].
  - apply (round2_compat (Qmax 0 a) (Qmax 0 b)); rewrite E; reflexivity.
  - apply (round2_compat (Qmax 0 a * rate) (Qmax 0 b * rate)); rewrite E; reflexivity.
Qed.

(** X22: when the slope is 0, the forecast returned repeats from week to
    week: two predictions seven days apart carry the same [predictedKWh]
    and the same [estimatedCost]. *)
Theorem flat_forecast_repeats_weekly
    (U : list UsageHour) (days : Q) (a : PredictionAnalytics) (t : Q)
    (preds : list UsagePrediction) :
  generatePredictions U days a = Some preds ->
  monthlyTrend a = Fin t -> t == 0 ->
  forall i p p',
    nth_error preds i = Some p -> nth_error preds (i + 7) = Some p' ->
    eqn (predictedKWh p) (predictedKWh p') /\
    eqn (estimatedCost p) (estimatedCost p').
Proof.
  intros E Ht Zt.
  destruct (generatePredictions_returned U days a preds E)
    as (lastDate & averages & ->).
  intros i p p' Hp Hp'.
  apply nth_error_map_seq in Hp, Hp'; destruct Hp as [_ ->], Hp' as [_ ->].
  cbn [predictionAt predictedKWh estimatedCost].
  replace (1 + (i + 7))%nat with ((1 + i) + 7)%nat by lia.
  rewrite getDay_week_later, Ht.
  set (base := or_else _ (averageDailyUsage a)).
  assert (X : eqn (add base (mul (Fin t) (ofNat (1 + i))))
                  (add base (mul (Fin t) (ofNat (1 + i + 7))))).
  { unfold ofNat; cbn [mul]; destruct base; cbn [add eqn]; auto.
    rewrite Zt; lra. }
  exact (rounded_figures_compat _ _ 0.15 X).
Qed.

Lemma flat_forecast_repeats_weekly_witness :
  exists preds,
    generatePredictions (series 3 msPerDay) 14
      (mkAnalytics (Fin 24) 0 0 (Fin 1) (Fin 1) (Fin 0)) = Some preds /\
    forall i p p',
      nth_error preds i = Some p -> nth_error preds (i + 7) = Some p' ->
      eqn (predictedKWh p) (predictedKWh p').
Proof.
  assert (H : exists preds,
             generatePredictions (series 3 msPerDay) 14
               (mkAnalytics (Fin 24) 0 0 (Fin 1) (Fin 1) (Fin 0)) = Some preds)
    by (vm_compute; eexists; reflexivity).
  destruct H as (preds & E).
  exists preds; split; [exact E |].
  intros i p p' Hp Hp'.
  refine (proj1 (flat_forecast_repeats_weekly (series 3 msPerDay) 14
                   (mkAnalytics (Fin 24) 0 0 (Fin 1) (Fin 1) (Fin 0)) 0 preds
                   E eq_refl _ i p p' Hp Hp')).
  reflexivity.
Defined.

(** *** A series within one calendar date *)

Lemma predictionAt_NaN
    (lastDate : Date) (averages : JSMap num) (days : Q)
    (a : PredictionAnalytics) (i : nat) :
  monthlyTrend a = NaN ->
  let p := predictionAt lastDate averages days a i in
  predictedKWh p = NaN /\ estimatedCost p = NaN /\ trend p = stable.
Proof.
  intros H; cbn zeta; cbn [predictionAt predictedKWh estimatedCost trend]; rewrite H.
  destruct (or_else _ (averageDailyUsage a)); repeat split; reflexivity.
Qed.

Lemma fold_add_NaN {A : Type} (f : A -> num) (l : list A) (acc : num) :
  l <> [] -> (forall x, In x l -> f x = NaN) ->
  fold_left (fun sum x => add sum (f x)) l acc = NaN.
Proof.
  intros N H; destruct l as [| x l]; [contradiction |]; clear N.
  cbn [fold_left]; rewrite (H x (or_introl eq_refl)).
  assert (E : add acc NaN = NaN) by (destruct acc; reflexivity).
  rewrite E.
  assert (G : forall l', fold_left (fun sum x => add sum (f x)) l' NaN = NaN)
    by (induction l' as [| y l' IH]; [reflexivity | exact IH]).
  apply G.
Qed.

(** What an answer of the handler holds on a series within one date. *)
Lemma one_day_response (days : Q) (U : list UsageHour) (body : PredictionResponse) :
  handlePrediction days U = Ok body ->
  (Spec.distinctDays U < 2)%nat ->
  monthlyTrend (analytics body) = NaN /\
  List.length (predictions body) = Z.to_nat (Qfloor days) /\
  Forall (fun p => predictedKWh p = NaN /\ estimatedCost p = NaN /\ trend p = stable)
         (predictions body).
Proof.
  intros E D.
  destruct (handlePrediction_answered days U body E) as (_ & Ea & Ep & _).
  destruct (generatePredictions_returned U days _ _ Ep) as (lastDate & averages & Es).
  assert (T : monthlyTrend (analytics body) = NaN).
  { destruct (calculateAnalytics_fields U _ Ea) as (_ & -> & _).
    destruct (dailyUsage_facts U) as (Ld & _ & _).
    apply calculateTrend_short.
    unfold map_values; rewrite length_map, Ld; exact D. }
  split; [exact T |].
  rewrite Es; split; [rewrite length_map, length_seq; reflexivity |].
  apply Forall_forall; intros p Hp; apply in_map_iff in Hp.
  destruct Hp as (i & <- & _); apply predictionAt_NaN; exact T.
Qed.

(** X23: when the handler answers a series whose readings all fall on one
    calendar date, the slope is [NaN] and so are the [predictedKWh] and the
    [estimatedCost] of every prediction, under the label "stable". *)
Theorem one_day_series_predicts_NaN
    (days : Q) (U : list UsageHour) (body : PredictionResponse) :
  handlePrediction days U = Ok body ->
  (Spec.distinctDays U < 2)%nat ->
  monthlyTrend (analytics body) = NaN /\
  Forall (fun p => predictedKWh p = NaN /\ estimatedCost p = NaN /\ trend p = stable)
         (predictions body).
Proof.
  intros E D.
  destruct (one_day_response days U body E D) as (T & _ & F).
  split; [exact T | exact F].
Qed.

Lemma one_day_series_predicts_NaN_witness :
  exists body,
    handlePrediction 7 (series 168 60000) = Ok body /\
    monthlyTrend (analytics body) = NaN.
Proof.
  assert (H : exists body, handlePrediction 7 (series 168 60000) = Ok body)
    by (vm_compute; eexists; reflexivity).
  destruct H as (body & E).
  destruct (one_day_series_predicts_NaN 7 (series 168 60000) body E) as (T & _).
  - vm_compute; lia.
  - exists body; split; [exact E | exact T].
Defined.

(** *** The insights *)

(** X24: when the handler answers a series within one calendar date over
    a horizon of a day or more, the insights give no sentence on the trend,
    and they end with the cost projection, whose total is [NaN]. *)
Theorem one_day_series_insights
    (days : Q) (U : list UsageHour) (body : PredictionResponse) :
  handlePrediction days U = Ok body ->
  (Spec.distinctDays U < 2)%nat ->
  1 <= days ->
  exists front,
    Insights.generateInsights (analytics body) (predictions body) =
      front ++ [Insights.CostProjection (Z.to_nat (Qfloor days)) NaN] /\
    forallb (fun i => negb (Insights.isTrendInsight i)) front = true.
Proof.
  intros E D Hd.
  destruct (one_day_response days U body E D) as (_ & Ln & F).
  set (a := analytics body); set (preds := predictions body) in *.
  assert (Pos : (1 <= Z.to_nat (Qfloor days))%nat).
  { assert (G : (Qfloor 1 <= Qfloor days)%Z) by (apply Qfloor_resp_le; exact Hd).
    change (Qfloor 1) with 1%Z in G; lia. }
  assert (Ne : preds <> []).
  { intros C; rewrite C in Ln; cbn in Ln; lia. }
  rewrite Forall_forall in F.
  unfold Insights.generateInsights.
  rewrite (fold_add_NaN predictedKWh preds (Fin 0) Ne (fun p Hp => proj1 (F p Hp))).
  rewrite (fold_add_NaN estimatedCost preds (Fin 0) Ne
             (fun p Hp => proj1 (proj2 (F p Hp)))).
  rewrite Ln.
  assert (C : forall x y, Insights.Math_abs (mul (sub (div (div NaN x) y) (Fin 1)) (Fin 100))
                          = NaN) by reflexivity.
  rewrite C.
  assert (G : gt NaN (Fin 5) = false) by reflexivity.
  rewrite G.
  destruct (gt (weekendAverage a) (mul (weekdayAverage a) (Fin 1.2)));
    destruct ((17 <=? peakUsageHour a) && (peakUsageHour a <=? 21))%Z;
    eexists; (split; [reflexivity | reflexivity]).
Qed.

Lemma one_day_series_insights_witness :
  exists body front,
    handlePrediction 7 (series 168 60000) = Ok body /\
    Insights.generateInsights (analytics body) (predictions body) =
      front ++ [Insights.CostProjection 7 NaN].
Proof.
  assert (H : exists body, handlePrediction 7 (series 168 60000) = Ok body)
    by (vm_compute; eexists; reflexivity).
  destruct H as (body & E).
  destruct (one_day_series_insights 7 (series 168 60000) body E) as (front & I & _).
  - vm_compute; lia.
  - vm_compute; discriminate.
  - exists body, front; split; [exact E | exact I].
Defined.

Lemma insights_weekend (a : PredictionAnalytics) (preds : list UsagePrediction)
    (pct : num) :
  In (Insights.WeekendHigher pct) (Insights.generateInsights a preds) <->
  gt (weekendAverage a) (mul (weekdayAverage a) (Fin 1.2)) = true /\
  pct = Math_round
          (mul (sub (div (weekendAverage a) (weekdayAverage a)) (Fin 1)) (Fin 100)).
Proof.
  unfold Insights.generateInsights.
  destruct (gt (weekendAverage a) (mul (weekdayAverage a) (Fin 1.2)));
    repeat match goal with
           | |- context [if ?b then _ else _] => destruct b
           end;
    cbn [app In]; split; intros H;
    repeat match goal with
           | H : _ \/ _ |- _ => destruct H as [H | H]
           | H : _ /\ _ |- _ => destruct H
           | H : False |- _ => destruct H
           end;
    try discriminate;
    try (injection H as <-; split; reflexivity);
    try (subst pct; left; reflexivity).
Qed.

(** X25: when the weekday and weekend averages are numbers and the
    weekday average is positive, the sentence on weekends is given exactly
    when the weekend average is more than 1.2 times the weekday average, and
    the percentage it reports is a whole number, 20 or more. *)
Theorem weekend_sentence_from_20_percent
    (a : PredictionAnalytics) (preds : list UsagePrediction) (we wd : Q) :
  weekendAverage a = Fin we -> weekdayAverage a = Fin wd -> 0 < wd ->
  ((exists pct, In (Insights.WeekendHigher pct) (Insights.generateInsights a preds))
   <-> wd * 1.2 < we) /\
  (forall pct,
     In (Insights.WeekendHigher pct) (Insights.generateInsights a preds) ->
     exists z, pct = Fin (inject_Z z) /\ (20 <= z)%Z).
Proof.
  intros Hwe Hwd Pwd.
  assert (G : gt (weekendAverage a) (mul (weekdayAverage a) (Fin 1.2)) = true
              <-> wd * 1.2 < we).
  { rewrite Hwe, Hwd; cbn [mul]; apply gt_fin. }
  assert (R : Math_round
                (mul (sub (div (weekendAverage a) (weekdayAverage a)) (Fin 1)) (Fin 100))
              = Fin (inject_Z (Qfloor ((we / wd - 1) * 100 + (1 # 2))))).
  { rewrite Hwe, Hwd, div_fin by lra; reflexivity. }
  split.
  - split.
    + intros (pct & H); apply insights_weekend in H; apply G, H.
    + intros H; eexists; apply insights_weekend; split; [apply G, H | reflexivity].
  - intros pct H; apply insights_weekend in H; destruct H as [H ->].
    apply G in H; rewrite R; eexists; split; [reflexivity |].
    assert (Dv : 1.2 < we / wd) by (apply Qlt_shift_div_l; [exact Pwd | lra]).
    assert (F : (Qfloor 20 <= Qfloor ((we / wd - 1) * 100 + (1 # 2)))%Z)
      by (apply Qfloor_resp_le; lra).
    exact F.
Qed.

Lemma weekend_sentence_from_20_percent_witness :
  exists pct,
    In (Insights.WeekendHigher pct)
       (Insights.generateInsights (mkAnalytics (Fin 24) 3 0 (Fin 1) (Fin 2) (Fin 0)) []).
Proof.
  refine (proj2 (proj1 (weekend_sentence_from_20_percent
                          (mkAnalytics (Fin 24) 3 0 (Fin 1) (Fin 2) (Fin 0)) [] 2 1
                          eq_refl eq_refl _)) _);
    reflexivity.
Defined.

End PredictExtra.
